(** * scripts/fetch-prs.py: the pull-request report generator

    A shallow embedding of [fetch_graphql], [fetch_prs] and [main].

    The script is untyped: it walks whatever [json.loads] returned, and a
    value of the wrong shape raises.  The embedding therefore works on raw
    JSON values with Python's dynamic operations ([in], subscripting,
    truthiness, iteration), and threads the process state (the network, the
    two output streams) through a small state-and-error monad.  The typed
    records [pr_node] and [page] at the end of the model describe the
    responses the API produces for the query; the theorems about the
    pagination walk quantify over them. *)

From Stdlib Require Import String Ascii List ZArith Lia Bool DecimalString Sorted.
Import ListNotations.

Local Open Scope string_scope.
Local Open Scope Z_scope.

Set Warnings "-register-all,-notation-for-abbreviation".

(** ** Parsed JSON values *)

(** What [json.loads] returns.  A dict is kept as an association list and
    read through [lookup]; numbers are integers (the queried schema has no
    numeric field). *)
Inductive json : Type :=
| JNull
| JBool (b : bool)
| JNum (n : Z)
| JStr (s : string)
| JArr (items : list json)
| JObj (fields : list (string * json)).

Fixpoint lookup (k : string) (fields : list (string * json)) : option json :=
  match fields with
  | [] => None
  | (k', v) :: rest => if String.eqb k k' then Some v else lookup k rest
  end.

Fixpoint dict_keys (seen : list string) (fields : list (string * json)) : list string :=
  match fields with
  | [] => []
  | (k, _) :: rest =>
      if existsb (String.eqb k) seen then dict_keys seen rest
      else k :: dict_keys (k :: seen) rest
  end.

(** ** Python's dynamic operations *)

Inductive exn : Type :=
| KeyError (key : string)
| TypeError
| AttributeError
| ValueError
| OverflowError
| UnicodeDecodeError
| UnicodeEncodeError.

(** A Python expression either has a value or raises. *)
Inductive py (A : Type) : Type :=
| Val (a : A)
| Raise (e : exn).
Arguments Val {A} a.
Arguments Raise {A} e.

Definition py_bind {A B} (x : py A) (f : A -> py B) : py B :=
  match x with
  | Val a => f a
  | Raise e => Raise e
  end.

(** [bool(v)]. *)
Definition truthy (v : json) : bool :=
  match v with
  | JNull => false
  | JBool b => b
  | JNum n => negb (n =? 0)
  | JStr s => negb (String.eqb s EmptyString)
  | JArr items => match items with [] => false | _ => true end
  | JObj fields => match fields with [] => false | _ => true end
  end.

(** [v[k]] for a string key [k]. *)
Definition getitem (v : json) (k : string) : py json :=
  match v with
  | JObj fields =>
      match lookup k fields with
      | Some x => Val x
      | None => Raise (KeyError k)
      end
  | _ => Raise TypeError
  end.

Fixpoint is_substring (k s : string) : bool :=
  if String.prefix k s then true
  else match s with
       | EmptyString => false
       | String _ s' => is_substring k s'
       end.

Definition json_is_str (k : string) (v : json) : bool :=
  match v with
  | JStr s => String.eqb s k
  | _ => false
  end.

(** [k in v] for a string [k]: a key of a dict, an element of a list, a
    substring of a string; anything else is not a container. *)
Definition contains (k : string) (v : json) : py bool :=
  match v with
  | JObj fields => Val (match lookup k fields with Some _ => true | None => false end)
  | JArr items => Val (existsb (json_is_str k) items)
  | JStr s => Val (is_substring k s)
  | _ => Raise TypeError
  end.

Fixpoint chars (s : string) : list json :=
  match s with
  | EmptyString => []
  | String c s' => JStr (String c EmptyString) :: chars s'
  end.

(** The items a [for] loop over [v] visits. *)
Definition py_iter (v : json) : py (list json) :=
  match v with
  | JArr items => Val items
  | JObj fields => Val (map JStr (dict_keys [] fields))
  | JStr s => Val (chars s)
  | _ => Raise TypeError
  end.

(** [s.replace("Z", "+00:00")]: every occurrence is replaced. *)
Fixpoint replace_Z (s : string) : string :=
  match s with
  | EmptyString => EmptyString
  | String c s' =>
      if Ascii.eqb c "Z"%char then "+00:00" ++ replace_Z s'
      else String c (replace_Z s')
  end.

Definition str_replace_Z (v : json) : py string :=
  match v with
  | JStr s => Val (replace_Z s)
  | _ => Raise AttributeError
  end.

(** ** Text and bytes

    A string of the model is a sequence of bytes.  A Python [str] is held as
    its UTF-8 encoding; a text with a lone surrogate, which has none, is held
    as bytes that are not well-formed UTF-8. *)

Definition byte_of (c : ascii) : Z := Z.of_nat (nat_of_ascii c).

Definition continuation (b : Z) : bool := (128 <=? b) && (b <=? 191).

(** Well-formed UTF-8, as the strict decoder of [bytes.decode] accepts it:
    no overlong form, no surrogate, nothing above U+10FFFF. *)
Fixpoint utf8_bytes (l : list Z) : bool :=
  match l with
  | [] => true
  | b0 :: t =>
      if b0 <=? 127 then utf8_bytes t
      else if (194 <=? b0) && (b0 <=? 223) then
        match t with
        | b1 :: t' => continuation b1 && utf8_bytes t'
        | _ => false
        end
      else if (224 <=? b0) && (b0 <=? 239) then
        match t with
        | b1 :: b2 :: t' =>
            (if b0 =? 224 then (160 <=? b1) && (b1 <=? 191)
             else if b0 =? 237 then (128 <=? b1) && (b1 <=? 159)
             else continuation b1)
            && continuation b2 && utf8_bytes t'
        | _ => false
        end
      else if (240 <=? b0) && (b0 <=? 244) then
        match t with
        | b1 :: b2 :: b3 :: t' =>
            (if b0 =? 240 then (144 <=? b1) && (b1 <=? 191)
             else if b0 =? 244 then (128 <=? b1) && (b1 <=? 143)
             else continuation b1)
            && continuation b2 && continuation b3 && utf8_bytes t'
        | _ => false
        end
      else false
  end.

Definition utf8_valid (s : string) : bool :=
  utf8_bytes (map byte_of (list_ascii_of_string s)).

(** [b.decode('utf-8')] *)
Definition decode_utf8 (b : string) : py string :=
  if utf8_valid b then Val b else Raise UnicodeDecodeError.

(** ** datetime *)

(** The wall-clock fields as microseconds since 1970-01-01T00:00:00, and the
    UTC offset in microseconds of an aware value ([None] for a naive one). *)
Record datetime : Type := { wall : Z; utcoffset : option Z }.

(** [a < b]: comparing a naive with an aware datetime raises. *)
Definition dt_lt (a b : datetime) : py bool :=
  match utcoffset a, utcoffset b with
  | Some oa, Some ob => Val (wall a - oa <? wall b - ob)
  | None, None => Val (wall a <? wall b)
  | _, _ => Raise TypeError
  end.

Definition us_per_day : Z := 86400000000.
Definition datetime_min : Z := -62135596800000000.
Definition datetime_max : Z := 253402300799999999.

(** [datetime.now(timezone.utc) - timedelta(days=d)], [now] being the clock
    reading in microseconds.  A timedelta holds at most 999999999 days, and
    a datetime lies in the years 1 to 9999. *)
Definition since_date_of (now d : Z) : py datetime :=
  if (Z.abs d >? 999999999) then Raise OverflowError
  else
    let t := now - d * us_per_day in
    if (t <? datetime_min) || (t >? datetime_max) then Raise OverflowError
    else Val {| wall := t; utcoffset := Some 0 |}.

(** ** The process state *)

Record request : Type := {
  req_url : string;
  req_headers : list (string * string);
  req_body : json  (* the value handed to json.dumps *)
}.

(** What one call of [urlopen] ends in: a 2xx response with its body parsed,
    or an [HTTPError] with its text ([str] of the exception) and the bytes of
    its body.  (A connection that fails or a 2xx body that is not JSON
    raises an exception the script does not catch; the model has no such
    reply.  The token is taken to be one [urlopen] accepts as a header
    value: it refuses, before sending, a token with a bare line break or a
    character outside Latin-1.) *)
Inductive http_reply : Type :=
| HttpOk (body : json)
| HttpError (e : string) (body : string).

(** [replies] is what the network will answer, call after call; [sent] the
    requests issued so far, oldest first; [out] and [err] the text written
    to standard output and to the error stream. *)
Record world : Type := {
  replies : list http_reply;
  sent : list request;
  out : string;
  err : string
}.

(** How a computation ends: with a value, by [sys.exit(code)], by an
    exception nobody catches, waiting for a reply that never comes, or (in
    the model only) out of fuel. *)
Inductive outcome (A : Type) : Type :=
| Done (a : A)
| SysExit (code : Z)
| Uncaught (e : exn)
| Blocked
| OutOfFuel.
Arguments Done {A} a.
Arguments SysExit {A} code.
Arguments Uncaught {A} e.
Arguments Blocked {A}.
Arguments OutOfFuel {A}.

Definition M (A : Type) : Type := world -> outcome A * world.

Definition ret {A} (a : A) : M A := fun w => (Done a, w).

Definition bind {A B} (m : M A) (f : A -> M B) : M B :=
  fun w =>
    match m w with
    | (Done a, w') => f a w'
    | (SysExit c, w') => (SysExit c, w')
    | (Uncaught e, w') => (Uncaught e, w')
    | (Blocked, w') => (Blocked, w')
    | (OutOfFuel, w') => (OutOfFuel, w')
    end.

Definition lift {A} (x : py A) : M A :=
  fun w =>
    match x with
    | Val a => (Done a, w)
    | Raise e => (Uncaught e, w)
    end.

Declare Scope fetch_scope.
Delimit Scope fetch_scope with fetch.
Notation "x <- m ;; k" := (bind m (fun x => k))
  (at level 61, m at next level, right associativity) : fetch_scope.
Notation "m ;;; k" := (bind m (fun _ => k))
  (at level 61, right associativity) : fetch_scope.
Local Open Scope fetch_scope.

Definition nl : string := String (ascii_of_nat 10) EmptyString.

(** [print(s, file=sys.stderr)] *)
Definition print_err (s : string) : M unit :=
  fun w => (Done tt, {| replies := replies w; sent := sent w;
                        out := out w; err := err w ++ s ++ nl |}).

Definition sys_exit {A} (code : Z) : M A := fun w => (SysExit code, w).

(** The exit status of the process; an uncaught exception ends it with 1. *)
Definition exit_status {A} (o : outcome A) : option Z :=
  match o with
  | Done _ => Some 0
  | SysExit c => Some c
  | Uncaught _ => Some 1
  | Blocked => None
  | OutOfFuel => None
  end.

(** ** Instances of the library functions

    The script leaves three library functions to Python: reading an ISO
    timestamp, printing one, and [str] of a parsed value.  The development
    is parametric in them; these instances serve the examples. *)

Module Instances.

Definition digits (s : string) : option Z :=
  match s with
  | EmptyString => None
  | _ => option_map Z.of_uint (NilEmpty.uint_of_string s)
  end.

Definition leap (y : Z) : bool :=
  ((y mod 4 =? 0) && negb (y mod 100 =? 0)) || (y mod 400 =? 0).

Definition days_in_month (y m : Z) : Z :=
  if m =? 2 then (if leap y then 29 else 28)
  else if (m =? 4) || (m =? 6) || (m =? 9) || (m =? 11) then 30
  else 31.

(** Days from 1970-01-01 to the civil date [y]-[m]-[d]. *)
Definition days_from_civil (y m d : Z) : Z :=
  let y' := if m <=? 2 then y - 1 else y in
  let era := y' / 400 in
  let yoe := y' - era * 400 in
  let doy := (153 * (if m >? 2 then m - 3 else m + 9) + 2) / 5 + d - 1 in
  let doe := yoe * 365 + yoe / 4 - yoe / 100 + doy in
  era * 146097 + doe - 719468.

(** The civil date [days] after 1970-01-01. *)
Definition civil_from_days (days : Z) : Z * Z * Z :=
  let z := days + 719468 in
  let era := z / 146097 in
  let doe := z - era * 146097 in
  let yoe := (doe - doe / 1460 + doe / 36524 - doe / 146096) / 365 in
  let doy := doe - (365 * yoe + yoe / 4 - yoe / 100) in
  let mp := (5 * doy + 2) / 153 in
  let d := doy - (153 * mp + 2) / 5 + 1 in
  let m := if mp <? 10 then mp + 3 else mp - 9 in
  (yoe + era * 400 + (if m <=? 2 then 1 else 0), m, d).

(** Reads [YYYY-MM-DDTHH:MM:SS+00:00], the form of the API's timestamps
    once their [Z] is replaced, as [datetime.fromisoformat] does; every
    other text is refused here (Python reads more forms). *)
Definition utc_fromisoformat (s : string) : option datetime :=
  if negb (Nat.eqb (String.length s) 25) then None
  else if negb (String.eqb (substring 4 1 s) "-" && String.eqb (substring 7 1 s) "-"
                && String.eqb (substring 10 1 s) "T"
                && String.eqb (substring 13 1 s) ":" && String.eqb (substring 16 1 s) ":"
                && String.eqb (substring 19 6 s) "+00:00") then None
  else
    match digits (substring 0 4 s), digits (substring 5 2 s), digits (substring 8 2 s),
          digits (substring 11 2 s), digits (substring 14 2 s), digits (substring 17 2 s) with
    | Some y, Some mo, Some d, Some h, Some mi, Some se =>
        if (1 <=? y) && (1 <=? mo) && (mo <=? 12) && (1 <=? d) && (d <=? days_in_month y mo)
           && (h <? 24) && (mi <? 60) && (se <? 60)
        then Some {| wall := (((days_from_civil y mo d * 24 + h) * 60 + mi) * 60 + se) * 1000000;
                     utcoffset := Some 0 |}
        else None
    | _, _, _, _, _, _ => None
    end.

Definition decimal (n : Z) : string := NilZero.string_of_int (Z.to_int n).

Fixpoint zeros (k : nat) : string :=
  match k with
  | O => EmptyString
  | S k' => String "0"%char (zeros k')
  end.

Definition padded (width : nat) (n : Z) : string :=
  let s := decimal n in
  zeros (width - String.length s) ++ s.

(** [datetime.isoformat], for offsets of whole minutes. *)
Definition utc_isoformat (d : datetime) : string :=
  let us := wall d mod 1000000 in
  let secs := wall d / 1000000 in
  let '(y, mo, dd) := civil_from_days (secs / 86400) in
  let sod := secs mod 86400 in
  padded 4 y ++ "-" ++ padded 2 mo ++ "-" ++ padded 2 dd ++ "T" ++
  padded 2 (sod / 3600) ++ ":" ++ padded 2 (sod / 60 mod 60) ++ ":" ++ padded 2 (sod mod 60) ++
  (if us =? 0 then EmptyString else "." ++ padded 6 us) ++
  match utcoffset d with
  | None => EmptyString
  | Some o =>
      let m := Z.abs o / 60000000 in
      (if o <? 0 then "-" else "+") ++ padded 2 (m / 60) ++ ":" ++ padded 2 (m mod 60)
  end.

Fixpoint join (sep : string) (l : list string) : string :=
  match l with
  | [] => EmptyString
  | [x] => x
  | x :: rest => x ++ sep ++ join sep rest
  end.

(** [repr] of a parsed value whose strings need no escaping. *)
Fixpoint repr (v : json) : string :=
  match v with
  | JNull => "None"
  | JBool b => if b then "True" else "False"
  | JNum n => decimal n
  | JStr s => "'" ++ s ++ "'"
  | JArr items => "[" ++ join ", " (map repr items) ++ "]"
  | JObj fields =>
      "{" ++ join ", " (map (fun kv => "'" ++ fst kv ++ "': " ++ repr (snd kv)) fields) ++ "}"
  end.

Definition str (v : json) : string :=
  match v with
  | JStr s => s
  | _ => repr v
  end.

(** Standard output in UTF-8 encodes every text but one with a lone
    surrogate. *)
Definition stdout_utf8 : string -> bool := utf8_valid.

(** A csv module that quotes a field for a carriage return. *)
Definition csv_quotes_cr : bool := true.

End Instances.

(** ** The script *)

Section Script.

(** Library functions the script calls and this development does not look
    inside: [datetime.fromisoformat] ([None] when it raises ValueError),
    [datetime.isoformat], and [str] on a parsed JSON value. *)
Variable fromisoformat : string -> option datetime.
Variable isoformat : datetime -> string.
Variable py_str : json -> string.

(** Two things that depend on where the script runs: which texts the
    encoding of standard output can encode, and whether the csv module
    quotes a field for a carriage return (newer versions do, older ones only
    for the characters of the line terminator). *)
Variable encodable : string -> bool.
Variable quotes_cr : bool.

Definition parse_datetime (s : string) : py datetime :=
  match fromisoformat s with
  | Some d => Val d
  | None => Raise ValueError
  end.

(** *** fetch_graphql *)

Definition graphql_url : string := "https://api.github.com/graphql".

(** One POST.  An [HTTPError] is reported and ends the process; with no
    reply left the call never returns. *)
Definition fetch_graphql (token query : string) (variables : json) : M json :=
  fun w =>
    let request :=
      {| req_url := graphql_url;
         req_headers := [("Authorization", "Bearer " ++ token);
                         ("Content-Type", "application/json")];
         req_body := JObj [("query", JStr query); ("variables", variables)] |} in
    match replies w with
    | [] =>
        (Blocked, {| replies := []; sent := sent w ++ [request];
                     out := out w; err := err w |})
    | HttpOk body :: rest =>
        (Done body, {| replies := rest; sent := sent w ++ [request];
                       out := out w; err := err w |})
    | HttpError e body :: rest =>
        (print_err ("Error fetching from GitHub API: " ++ e) ;;;
         text <- lift (decode_utf8 body) ;;
         print_err ("Response: " ++ text) ;;;
         sys_exit 1)
          {| replies := rest; sent := sent w ++ [request];
             out := out w; err := err w |}
    end.

(** *** fetch_prs *)

(** The GraphQL document, line by line as in the source. *)
Definition query : string :=
  nl ++
  "    query($owner: String!, $repo: String!, $cursor: String) {" ++ nl ++
  "      repository(owner: $owner, name: $repo) {" ++ nl ++
  "        pullRequests(first: 100, after: $cursor, orderBy: {field: UPDATED_AT, direction: DESC}) {" ++ nl ++
  "          pageInfo {" ++ nl ++
  "            hasNextPage" ++ nl ++
  "            endCursor" ++ nl ++
  "          }" ++ nl ++
  "          nodes {" ++ nl ++
  "            title" ++ nl ++
  "            url" ++ nl ++
  "            merged" ++ nl ++
  "            mergedAt" ++ nl ++
  "            updatedAt" ++ nl ++
  "            state" ++ nl ++
  "          }" ++ nl ++
  "        }" ++ nl ++
  "      }" ++ nl ++
  "    }" ++ nl ++
  "    ".

(** A dict appended to [all_prs]. *)
Record row : Type := {
  r_title : json;
  r_link : json;
  r_merged : string;
  r_updated : json
}.

Definition variables_of (cursor : json) (since_date : datetime) : json :=
  JObj [("owner", JStr "NixOS");
        ("repo", JStr "nixpkgs");
        ("cursor", cursor);
        ("since", JStr (isoformat since_date))].

(** The [for pr in pull_requests["nodes"]] loop.  It returns [all_prs] and
    [should_continue] as the loop leaves them; [break] is the return without
    visiting the rest. *)
Fixpoint for_nodes (since_date : datetime) (nodes : list json)
    (all_prs : list row) (should_continue : bool) : py (list row * bool) :=
  match nodes with
  | [] => Val (all_prs, should_continue)
  | pr :: rest =>
      py_bind (getitem pr "updatedAt") (fun u =>
      py_bind (str_replace_Z u) (fun s =>
      py_bind (parse_datetime s) (fun updated_at =>
      py_bind (dt_lt updated_at since_date) (fun older =>
      if older then Val (all_prs, false)
      else
        py_bind (getitem pr "merged") (fun is_merged =>
        py_bind (getitem pr "state") (fun state =>
        let is_open := json_is_str "OPEN" state in
        if truthy is_merged || is_open then
          py_bind (getitem pr "title") (fun title =>
          py_bind (getitem pr "url") (fun url =>
          py_bind (getitem pr "updatedAt") (fun updated =>
          for_nodes since_date rest
            (all_prs ++ [{| r_title := title;
                            r_link := url;
                            r_merged := if truthy is_merged then "true" else "false";
                            r_updated := updated |}])
            should_continue)))
        else for_nodes since_date rest all_prs should_continue))))))
  end.

(** The variables the [while] loop carries from one iteration to the next. *)
Record loop_vars : Type := {
  all_prs : list row;
  cursor : json;
  should_continue : bool
}.

(** The condition of the second test: [data] is not a key of the result,
    or [result[data][repository]] is falsy, the right operand being
    evaluated only when the left one is false. *)
Definition repository_missing (result : json) : py bool :=
  py_bind (contains "data" result) (fun has_data =>
  if negb has_data then Val true
  else
    py_bind (getitem result "data") (fun data =>
    py_bind (getitem data "repository") (fun repository =>
    Val (negb (truthy repository))))).

(** One pass through the body of the [while] loop: [inl] carries the
    variables into the next iteration, [inr] is the [break]. *)
Definition loop_body (token : string) (since_date : datetime) (v : loop_vars)
    : M (loop_vars + list row) :=
  result <- fetch_graphql token query (variables_of (cursor v) since_date) ;;
  has_errors <- lift (contains "errors" result) ;;
  if (has_errors : bool) then
    errors <- lift (getitem result "errors") ;;
    print_err ("GraphQL errors: " ++ py_str errors) ;;;
    sys_exit 1
  else
    missing <- lift (repository_missing result) ;;
    if (missing : bool) then
      print_err "Repository not accessible" ;;;
      sys_exit 1
    else
      data <- lift (getitem result "data") ;;
      repository <- lift (getitem data "repository") ;;
      pull_requests <- lift (getitem repository "pullRequests") ;;
      page_info <- lift (getitem pull_requests "pageInfo") ;;
      nodes <- lift (getitem pull_requests "nodes") ;;
      items <- lift (py_iter nodes) ;;
      walked <- lift (for_nodes since_date items (all_prs v) (should_continue v)) ;;
      has_next <- lift (getitem page_info "hasNextPage") ;;
      if truthy has_next && snd walked then
        end_cursor <- lift (getitem page_info "endCursor") ;;
        ret (inl {| all_prs := fst walked;
                    cursor := end_cursor;
                    should_continue := snd walked |})
      else ret (inr (fst walked)).

(** [while should_continue: ...], with the number of iterations bounded by
    [fuel]. *)
Fixpoint while_loop (fuel : nat) (token : string) (since_date : datetime)
    (v : loop_vars) : M (list row) :=
  match fuel with
  | O => fun w => (OutOfFuel, w)
  | S fuel' =>
      if should_continue v then
        next <- loop_body token since_date v ;;
        match next with
        | inl v' => while_loop fuel' token since_date v'
        | inr prs => ret prs
        end
      else ret (all_prs v)
  end.

(** The variables as [fetch_prs] sets them before the loop. *)
Definition entry : loop_vars :=
  {| all_prs := []; cursor := JNull; should_continue := true |}.

(** [fetch_prs].  Every iteration takes one reply off the network, so one
    more unit of fuel than there are replies is never used up
    ([while_loop_fuel] below), and a larger bound changes nothing
    ([while_loop_more_fuel]). *)
Definition fetch_prs (token : string) (since_date : datetime) : M (list row) :=
  fun w => while_loop (S (length (replies w))) token since_date entry w.

(** *** The CSV writer

    [csv.DictWriter] in the default dialect (comma, double quote, minimal
    quoting, quotes doubled) with the line terminator set to a newline;
    each row is written with one [write]. *)

Definition dquote : ascii := ascii_of_nat 34.

Definition fieldnames : list string := ["title"; "link"; "merged"; "updated"].

(** The text of a cell: nothing for [None], a string as it is, [str] of
    anything else. *)
Definition cell_text (v : json) : string :=
  match v with
  | JNull => EmptyString
  | JStr s => s
  | _ => py_str v
  end.

Definition special (c : ascii) : bool :=
  Ascii.eqb c ","%char || Ascii.eqb c dquote
  || Ascii.eqb c (ascii_of_nat 10)
  || (Ascii.eqb c (ascii_of_nat 13) && quotes_cr).

Fixpoint has_special (s : string) : bool :=
  match s with
  | EmptyString => false
  | String c s' => special c || has_special s'
  end.

Fixpoint double_quotes (s : string) : string :=
  match s with
  | EmptyString => EmptyString
  | String c s' =>
      if Ascii.eqb c dquote then String dquote (String dquote (double_quotes s'))
      else String c (double_quotes s')
  end.

Definition csv_field (s : string) : string :=
  if has_special s
  then String dquote (double_quotes s ++ String dquote EmptyString)
  else s.

Fixpoint join_fields (fields : list string) : string :=
  match fields with
  | [] => EmptyString
  | [f] => f
  | f :: rest => f ++ "," ++ join_fields rest
  end.

Definition csv_line (fields : list string) : string :=
  join_fields (map csv_field fields) ++ nl.

(** The values of a row dict in the order of [fieldnames]. *)
Definition row_values (r : row) : list string :=
  [cell_text (r_title r); cell_text (r_link r); r_merged r; cell_text (r_updated r)].

Definition header_line : string := csv_line fieldnames.

Fixpoint csv_rows (prs : list row) : string :=
  match prs with
  | [] => EmptyString
  | r :: rest => csv_line (row_values r) ++ csv_rows rest
  end.

(** One [write] on standard output: the text is encoded whole, and a text
    the stream cannot encode raises with nothing of it written.  (The stream
    is taken to accept what it can encode.) *)
Definition write_out (s : string) : M unit :=
  fun w =>
    if encodable s
    then (Done tt, {| replies := replies w; sent := sent w;
                      out := out w ++ s; err := err w |})
    else (Uncaught UnicodeEncodeError, w).

Definition writeheader : M unit := write_out header_line.

Fixpoint writerows (prs : list row) : M unit :=
  match prs with
  | [] => ret tt
  | r :: rest => write_out (csv_line (row_values r)) ;;; writerows rest
  end.

(** The rows written before the first one standard output cannot
    encode. *)
Fixpoint written (prs : list row) : list row :=
  match prs with
  | [] => []
  | r :: rest =>
      if encodable (csv_line (row_values r)) then r :: written rest else []
  end.

Definition all_encodable (prs : list row) : bool :=
  forallb (fun r => encodable (csv_line (row_values r))) prs.

(** *** main

    [environ_token] is [os.environ.get] of GITHUB_TOKEN, [newer_than_days]
    the parsed command-line option, [now] the clock reading. *)
Definition main (environ_token : option string) (newer_than_days now : Z) : M unit :=
  match environ_token with
  | Some (String c t) =>
      let token := String c t in
      since_date <- lift (since_date_of now newer_than_days) ;;
      prs <- fetch_prs token since_date ;;
      writeheader ;;;
      writerows prs
  | _ =>
      print_err "Error: GITHUB_TOKEN environment variable is required" ;;;
      sys_exit 1
  end.

(** The process as it starts: nothing sent, nothing written. *)
Definition start (script : list http_reply) : world :=
  {| replies := script; sent := []; out := EmptyString; err := EmptyString |}.

(** The replies taken off the network between two states. *)
Definition received (w0 w1 : world) : list http_reply :=
  firstn (length (replies w0) - length (replies w1)) (replies w0).

(** *** The responses of the API

    What the API answers to [query]: a page of pull-request nodes with the
    six requested fields, and the page information. *)

Record pr_node : Type := {
  title : string;
  url : string;
  merged : bool;
  mergedAt : option string;
  updatedAt : string;
  state : string
}.

Record page : Type := {
  hasNextPage : bool;
  endCursor : option string;
  nodes : list pr_node
}.

Definition opt_str (o : option string) : json :=
  match o with
  | Some s => JStr s
  | None => JNull
  end.

Definition node_json (n : pr_node) : json :=
  JObj [("title", JStr (title n));
        ("url", JStr (url n));
        ("merged", JBool (merged n));
        ("mergedAt", opt_str (mergedAt n));
        ("updatedAt", JStr (updatedAt n));
        ("state", JStr (state n))].

Definition page_json (p : page) : json :=
  JObj [("data",
    JObj [("repository",
      JObj [("pullRequests",
        JObj [("pageInfo", JObj [("hasNextPage", JBool (hasNextPage p));
                                 ("endCursor", opt_str (endCursor p))]);
              ("nodes", JArr (map node_json (nodes p)))])])])].

Definition page_reply (p : page) : http_reply := HttpOk (page_json p).

(** The cutoff as [main] builds it: an aware datetime in UTC. *)
Definition utc (t : Z) : datetime := {| wall := t; utcoffset := Some 0 |}.

(** The instant (microseconds, UTC) a node was last updated, when its
    timestamp reads as an aware datetime. *)
Definition updated_instant (n : pr_node) : option Z :=
  match fromisoformat (replace_Z (updatedAt n)) with
  | Some d =>
      match utcoffset d with
      | Some o => Some (wall d - o)
      | None => None
      end
  | None => None
  end.

Definition timed (n : pr_node) : Prop := exists t, updated_instant n = Some t.

Definition stamp (n : pr_node) : Z :=
  match updated_instant n with
  | Some t => t
  | None => 0
  end.

(** [updatedAt] is at or after the cutoff. *)
Definition in_window (cutoff : Z) (n : pr_node) : bool :=
  match updated_instant n with
  | Some t => cutoff <=? t
  | None => false
  end.

Definition is_open (n : pr_node) : bool := String.eqb (state n) "OPEN".

Definition merged_or_open (n : pr_node) : bool := merged n || is_open n.

(** The record built for a node. *)
Definition row_of (n : pr_node) : row :=
  {| r_title := JStr (title n);
     r_link := JStr (url n);
     r_merged := if merged n then "true" else "false";
     r_updated := JStr (updatedAt n) |}.

(** The nodes of a page before its first node older than the cutoff. *)
Fixpoint fresh (cutoff : Z) (l : list pr_node) : list pr_node :=
  match l with
  | [] => []
  | n :: rest => if in_window cutoff n then n :: fresh cutoff rest else []
  end.

Definition all_fresh (cutoff : Z) (l : list pr_node) : bool :=
  forallb (in_window cutoff) l.

(** Newest first. *)
Definition descending (l : list pr_node) : Prop :=
  Sorted (fun a b => stamp b <= stamp a) l.

(** The last page of the listing says so. *)
Definition listing_ends (pages : list page) : Prop :=
  exists front final, pages = (front ++ [final])%list /\ hasNextPage final = false.

(** The window filter in the words of the specification: of the nodes
    fetched, those updated at or after the cutoff that are merged or open
    give one row each, in order, and nothing else gives a row. *)
Definition retained (cutoff : Z) (n : pr_node) : bool :=
  in_window cutoff n && merged_or_open n.

Definition window_filter (cutoff : Z) (fetched : list pr_node) (rows : list row) : Prop :=
  rows = map row_of (filter (retained cutoff) fetched).

(** The nodes of the pages fetched when [k] requests were sent. *)
Definition fetched_nodes (k : nat) (pages : list page) : list pr_node :=
  flat_map nodes (firstn k pages).

(** *** Replies that end the run *)

(** The value under the top-level key [errors] of a response object. *)
Definition errors_of (j : json) : option json :=
  match j with
  | JObj fields => lookup "errors" fields
  | _ => None
  end.

Definition errors_message (j : json) : string :=
  "GraphQL errors: " ++ py_str (match errors_of j with Some e => e | None => JNull end).

(** A response object without [errors] that has no [data], or whose [data]
    holds a repository that is null (or empty). *)
Definition repository_unavailable (j : json) : Prop :=
  match j with
  | JObj fields =>
      lookup "errors" fields = None /\
      (lookup "data" fields = None \/
       exists data r,
         lookup "data" fields = Some (JObj data) /\
         lookup "repository" data = Some r /\ truthy r = false)
  | _ => False
  end.

(** Missing repository data in the words of the specification: no data
    object, or a null or absent repository under it. *)
Definition repository_data_missing (j : json) : Prop :=
  match j with
  | JObj fields =>
      lookup "data" fields = None \/
      exists data,
        lookup "data" fields = Some (JObj data) /\
        (lookup "repository" data = None \/ lookup "repository" data = Some JNull)
  | _ => False
  end.

(** The process reported the repository as not accessible and ended with a
    status other than zero. *)
Definition reports_not_accessible (r : outcome unit * world) : Prop :=
  err (snd r) = "Repository not accessible" ++ nl /\
  exists code, exit_status (fst r) = Some code /\ code <> 0.

(** The names of the GraphQL variables a request carries. *)
Definition variable_names (r : request) : list string :=
  match req_body r with
  | JObj fields =>
      match lookup "variables" fields with
      | Some (JObj vars) => map fst vars
      | _ => []
      end
  | _ => []
  end.

(** *** Example data

    The scenario of the specification: the cutoff is 2024-01-01T00:00:00Z,
    and the pull requests are A (merged), B (closed, not merged), C (open,
    last updated before the cutoff) and D (open). *)

Definition ex_cutoff : Z := 1704067200000000.

Definition ex_days : Z := 30.

Definition ex_now : Z := ex_cutoff + ex_days * us_per_day.

Definition pr_A : pr_node :=
  {| title := "A"; url := "https://github.com/NixOS/nixpkgs/pull/1";
     merged := true; mergedAt := Some "2024-01-15T00:00:00Z";
     updatedAt := "2024-01-15T00:00:00Z"; state := "MERGED" |}.

Definition pr_B : pr_node :=
  {| title := "B"; url := "https://github.com/NixOS/nixpkgs/pull/2";
     merged := false; mergedAt := None;
     updatedAt := "2024-01-10T00:00:00Z"; state := "CLOSED" |}.

Definition pr_C : pr_node :=
  {| title := "C"; url := "https://github.com/NixOS/nixpkgs/pull/3";
     merged := false; mergedAt := None;
     updatedAt := "2023-12-20T00:00:00Z"; state := "OPEN" |}.

Definition pr_D : pr_node :=
  {| title := "D"; url := "https://github.com/NixOS/nixpkgs/pull/4";
     merged := false; mergedAt := None;
     updatedAt := "2024-01-20T08:30:00Z"; state := "OPEN" |}.

Definition page_DA : page :=
  {| hasNextPage := true; endCursor := Some "cursor-1"; nodes := [pr_D; pr_A] |}.

Definition page_BC : page :=
  {| hasNextPage := false; endCursor := None; nodes := [pr_B; pr_C] |}.

(** The page [page_BC] announcing a further page. *)
Definition page_BC_more : page :=
  {| hasNextPage := true; endCursor := Some "cursor-2"; nodes := [pr_B; pr_C] |}.

(** A page that is not sorted: the old C comes before the new A. *)
Definition page_CA : page :=
  {| hasNextPage := false; endCursor := None; nodes := [pr_C; pr_A] |}.

Definition errors_reply : http_reply :=
  HttpOk (JObj [("errors", JArr [JObj [("message", JStr "Bad credentials")]])]).

Definition empty_errors_reply : http_reply :=
  HttpOk (JObj [("data", JNull); ("errors", JArr [])]).

Definition null_repository_reply : http_reply :=
  HttpOk (JObj [("data", JObj [("repository", JNull)])]).

Definition absent_repository_reply : http_reply :=
  HttpOk (JObj [("data", JObj [])]).

Definition errors_without_data_reply : http_reply :=
  HttpOk (JObj [("errors", JArr [JObj [("message", JStr "Bad credentials")]])]).

Definition http_error_reply : http_reply :=
  HttpError "HTTP Error 401: Unauthorized" "Bad credentials".

Definition null_data_reply : http_reply :=
  HttpOk (JObj [("data", JNull)]).

(** E was updated at the very instant of the cutoff. *)
Definition pr_E : pr_node :=
  {| title := "E"; url := "https://github.com/NixOS/nixpkgs/pull/5";
     merged := false; mergedAt := None;
     updatedAt := "2024-01-01T00:00:00Z"; state := "OPEN" |}.

Definition page_AEC : page :=
  {| hasNextPage := false; endCursor := None; nodes := [pr_A; pr_E; pr_C] |}.

(** A node whose timestamp is no timestamp. *)
Definition pr_F : pr_node :=
  {| title := "F"; url := "https://github.com/NixOS/nixpkgs/pull/6";
     merged := true; mergedAt := None;
     updatedAt := "yesterday"; state := "MERGED" |}.

Definition page_AF : page :=
  {| hasNextPage := false; endCursor := None; nodes := [pr_A; pr_F] |}.

(** *** Endings and diagnostics *)

(** The ways an iteration ends the process. *)
Inductive stop : Type :=
| StopExit (code : Z)
| StopRaise (e : exn).

Definition stopped {A} (s : stop) : outcome A :=
  match s with
  | StopExit code => SysExit code
  | StopRaise e => Uncaught e
  end.

(** The texts the script writes to the error stream. *)
Definition http_error_text (e body : string) : string :=
  "Error fetching from GitHub API: " ++ e ++ nl ++ "Response: " ++ body ++ nl.

(** What the script writes before the [sys.exit] a reply leads to: an
    HTTP error gives its two lines; a response with an [errors] key gives
    the errors; any other gives the repository that is not accessible. *)
Definition exit_message (r : http_reply) : string :=
  match r with
  | HttpError e body => http_error_text e body
  | HttpOk j =>
      match errors_of j with
      | Some errors => "GraphQL errors: " ++ py_str errors ++ nl
      | None => "Repository not accessible" ++ nl
      end
  end.

(** Printable ASCII: every byte from space to tilde.  Such a token is one
    [urlopen] accepts as a header value. *)
Fixpoint plain_ascii (s : string) : bool :=
  match s with
  | EmptyString => true
  | String c s' => (32 <=? byte_of c) && (byte_of c <=? 126) && plain_ascii s'
  end.

(** What a response object with [data] but no usable repository raises. *)
Definition data_fault (r : http_reply) : option exn :=
  match r with
  | HttpOk (JObj fields) =>
      match lookup "errors" fields, lookup "data" fields with
      | None, Some (JObj data) =>
          match lookup "repository" data with
          | None => Some (KeyError "repository")
          | Some _ => None
          end
      | None, Some _ => Some TypeError
      | _, _ => None
      end
  | _ => None
  end.

(** The text has no letter Z. *)
Fixpoint no_Z (s : string) : bool :=
  match s with
  | EmptyString => true
  | String c s' => negb (Ascii.eqb c "Z"%char) && no_Z s'
  end.

(** *** The walk, page by page *)

(** The cursors of the requests that fetch [pages], the first one being
    [c0]: each page is asked for with the end cursor of the page before. *)
Fixpoint front_cursors (c0 : json) (pages : list page) : list json :=
  match pages with
  | [] => []
  | q :: rest => c0 :: front_cursors (opt_str (endCursor q)) rest
  end.

(** The loop variables after pages that were read whole and announced a
    next page. *)
Fixpoint after_front (front : list page) (v : loop_vars) : loop_vars :=
  match front with
  | [] => v
  | q :: rest =>
      after_front rest
        {| all_prs := all_prs v ++ map row_of (filter merged_or_open (nodes q));
           cursor := opt_str (endCursor q);
           should_continue := true |}
  end.

(** Pages the walk reads whole and goes on from: each announces a next
    page and has no node older than the cutoff. *)
Definition front_ok (c : Z) (front : list page) : Prop :=
  Forall (fun q => hasNextPage q = true /\
                   Forall (fun m => in_window c m = true) (nodes q)) front.

(** The number of pages of a listing the walk fetches: it goes on to the
    next page while a page announces one and has no node older than the
    cutoff. *)
Fixpoint pages_read (cutoff : Z) (pages : list page) : nat :=
  match pages with
  | [] => O
  | p :: rest =>
      if hasNextPage p && all_fresh cutoff (nodes p)
      then S (pages_read cutoff rest)
      else 1%nat
  end.

(** ** One iteration, whatever the reply *)

Definition request_of (token : string) (since_date : datetime) (c : json) : request :=
  {| req_url := graphql_url;
     req_headers := [("Authorization", "Bearer " ++ token);
                     ("Content-Type", "application/json")];
     req_body := JObj [("query", JStr query); ("variables", variables_of c since_date)] |}.

Ltac split_match H :=
  match type of H with
  | context [match ?x with _ => _ end] =>
      lazymatch x with
      | context [match _ with _ => _ end] => fail
      | _ => destruct x eqn:?
      end
  end.

Ltac run_in H :=
  repeat (cbn [fst snd replies sent out err] in H; split_match H);
  cbn [fst snd replies sent out err] in H.

(** An iteration sends one request and never touches standard output; it
    takes one reply, or blocks when there is none; and when it ends without
    exiting it has written nothing to the error stream. *)
Lemma loop_body_frame token since v w o w1 :
  loop_body token since v w = (o, w1) ->
  out w1 = out w /\
  sent w1 = (sent w ++ [request_of token since (cursor v)])%list /\
  ((replies w = [] /\ replies w1 = [] /\ o = Blocked) \/
   (exists r, replies w = r :: replies w1)) /\
  (forall x, o = Done x -> err w1 = err w).
Proof.
  unfold loop_body, bind, fetch_graphql, lift, print_err, sys_exit, ret.
  intros H.
  destruct (replies w) as [|[body|e body] rest] eqn:Hr;
    cbn [fst snd replies sent out err] in H.
  - inversion H; subst; cbn. repeat split; auto; discriminate.
  - run_in H; inversion H; subst; cbn;
      repeat split; auto;
      try (right; eexists; reflexivity); try discriminate.
  - unfold bind, lift, decode_utf8, print_err, sys_exit in H.
    cbn [fst snd replies sent out err] in H.
    destruct (utf8_valid body); inversion H; subst; cbn;
      (repeat split; auto; [right; eexists; reflexivity | discriminate]).
Qed.

(** ** The loop, whatever the replies *)

(** The loop never writes to standard output, takes replies off the front
    of the network, and sends requests of one shape. *)
Lemma while_loop_frame token since fuel :
  forall v w o w1,
    while_loop fuel token since v w = (o, w1) ->
    out w1 = out w /\
    (exists taken, replies w = (taken ++ replies w1)%list) /\
    (exists cursors,
        sent w1 = (sent w ++ map (request_of token since) cursors)%list).
Proof.
  induction fuel as [|fuel IH]; intros v w o w1 H; cbn in H.
  - inversion H; subst. repeat split; auto.
    + exists []. reflexivity.
    + exists []. cbn. now rewrite app_nil_r.
  - destruct (should_continue v).
    + unfold bind in H.
      destruct (loop_body token since v w) as [o' w'] eqn:Hb.
      destruct (loop_body_frame _ _ _ _ _ _ Hb) as (Hout & Hsent & Hrep & _).
      assert (Htaken : exists taken, replies w = (taken ++ replies w')%list).
      { destruct Hrep as [(H0 & H1 & _) | [r Hr]].
        - exists []. now rewrite H0, H1.
        - exists [r]. exact Hr. }
      destruct o' as [[v'|prs]| | | |].
      * apply IH in H. destruct H as (Hout' & [taken' Hrep'] & [cs Hsent']).
        destruct Htaken as [taken Htaken].
        split; [congruence|]. split.
        -- exists (taken ++ taken')%list. rewrite Htaken, Hrep'. now rewrite app_assoc.
        -- exists (cursor v :: cs). rewrite Hsent', Hsent. now rewrite <- app_assoc.
      * unfold ret in H. inversion H; subst.
        repeat split; auto. exists [cursor v]. exact Hsent.
      * inversion H; subst. repeat split; auto. exists [cursor v]. exact Hsent.
      * inversion H; subst. repeat split; auto. exists [cursor v]. exact Hsent.
      * inversion H; subst. repeat split; auto. exists [cursor v]. exact Hsent.
      * inversion H; subst. repeat split; auto. exists [cursor v]. exact Hsent.
    + unfold ret in H. inversion H; subst. repeat split; auto.
      * exists []. reflexivity.
      * exists []. cbn. now rewrite app_nil_r.
Qed.

Lemma received_taken (w w1 : world) taken :
  replies w = (taken ++ replies w1)%list -> received w w1 = taken.
Proof.
  intros H. unfold received. rewrite H, length_app.
  replace (length taken + length (replies w1) - length (replies w1))%nat
    with (length taken + 0)%nat by lia.
  rewrite firstn_app_2. cbn. now rewrite app_nil_r.
Qed.

Lemma append_nil_r (s : string) : s ++ EmptyString = s.
Proof. induction s; cbn; congruence. Qed.

Lemma append_assoc (a b c : string) : (a ++ b) ++ c = a ++ (b ++ c).
Proof. induction a; cbn; congruence. Qed.

Lemma writerows_spec prs :
  forall w, writerows prs w =
            (if all_encodable prs then Done tt else Uncaught UnicodeEncodeError,
             {| replies := replies w; sent := sent w;
                out := out w ++ csv_rows (written prs); err := err w |}).
Proof.
  induction prs as [|r rest IH]; intros w; cbn [writerows all_encodable forallb written].
  - unfold ret. cbn. rewrite append_nil_r. now destruct w.
  - unfold bind, write_out.
    destruct (encodable (csv_line (row_values r))); cbn [andb].
    + rewrite IH. cbn [replies sent out err csv_rows].
      now rewrite append_assoc.
    + cbn [csv_rows]. rewrite append_nil_r. now destruct w.
Qed.

Lemma written_all prs : all_encodable prs = true -> written prs = prs.
Proof.
  induction prs as [|r rest IH]; cbn; [reflexivity|].
  intros H. apply andb_prop in H. destruct H as [Hr Hrest].
  rewrite Hr. now rewrite IH.
Qed.

(** A run of [main] that gets as far as the loop. *)
Lemma main_inv tok days now script o w1 :
  main tok days now (start script) = (o, w1) ->
  (w1 = {| replies := script; sent := []; out := EmptyString;
           err := "Error: GITHUB_TOKEN environment variable is required" ++ nl |}
   /\ o = SysExit 1 /\ (tok = None \/ tok = Some EmptyString)) \/
  (exists e, w1 = start script /\ o = Uncaught e /\ since_date_of now days = Raise e) \/
  (exists token since o' w',
      tok = Some token /\ since_date_of now days = Val since /\
      fetch_prs token since (start script) = (o', w') /\
      match o' with
      | Done prs =>
          o = (if encodable header_line && all_encodable prs
               then Done tt else Uncaught UnicodeEncodeError) /\
          w1 = {| replies := replies w'; sent := sent w';
                  out := out w' ++
                         (if encodable header_line
                          then header_line ++ csv_rows (written prs)
                          else EmptyString);
                  err := err w' |}
      | SysExit c => o = SysExit c /\ w1 = w'
      | Uncaught e => o = Uncaught e /\ w1 = w'
      | Blocked => o = Blocked /\ w1 = w'
      | OutOfFuel => o = OutOfFuel /\ w1 = w'
      end).
Proof.
  unfold main. intros H.
  destruct tok as [[|c t]|].
  - left. cbn in H. inversion H; subst. auto.
  - right. unfold bind, lift in H.
    destruct (since_date_of now days) as [since|e] eqn:Hs.
    + right. destruct (fetch_prs (String c t) since (start script)) as [o' w'] eqn:Hf.
      exists (String c t), since, o', w'. repeat split; auto.
      destruct o'; try (inversion H; subst; auto; fail).
      unfold writeheader, write_out in H.
      destruct (encodable header_line); cbn [andb] in *.
      * rewrite writerows_spec in H. cbn [replies sent out err] in H.
        inversion H; subst. split; [now destruct (all_encodable a)|].
        now rewrite append_assoc.
      * inversion H; subst. split; [reflexivity|].
        rewrite append_nil_r. now destruct w1.
    + left. exists e. inversion H; subst. auto.
  - left. cbn in H. inversion H; subst. auto.
Qed.

(** *** Replies that end the run *)

Section Fatal.

Variable fatal : json -> Prop.
Variable message : json -> string.

Hypothesis fatal_step :
  forall token since v w j rest,
    replies w = HttpOk j :: rest ->
    fatal j ->
    exists w1,
      loop_body token since v w = (SysExit 1, w1) /\
      err w1 = err w ++ message j ++ nl.

Lemma fatal_in_loop token since fuel :
  forall v w o w1,
    while_loop fuel token since v w = (o, w1) ->
    forall j, In (HttpOk j) (received w w1) -> fatal j ->
    o = SysExit 1 /\ err w1 = err w ++ message j ++ nl.
Proof.
  induction fuel as [|fuel IH]; intros v w o w1 H j Hin Hj; cbn in H.
  - inversion H; subst. unfold received in Hin.
    rewrite Nat.sub_diag in Hin. destruct Hin.
  - destruct (should_continue v).
    2:{ unfold ret in H. inversion H; subst. unfold received in Hin.
        rewrite Nat.sub_diag in Hin. destruct Hin. }
    unfold bind in H.
    destruct (loop_body token since v w) as [o' w'] eqn:Hb.
    destruct (loop_body_frame _ _ _ _ _ _ Hb) as (_ & _ & Hrep & Herr).
    destruct Hrep as [(H0 & H1 & Ho) | [r Hr]].
    + subst o'. inversion H; subst. unfold received in Hin.
      rewrite H0, H1 in Hin. destruct Hin.
    + assert (Hlast : received w w' = [r]) by (apply received_taken; exact Hr).
      destruct o' as [[v'|prs]| | | |];
        try (inversion H; subst; rewrite Hlast in Hin;
             destruct Hin as [Hin|[]]; subst r;
             destruct (fatal_step token since v w j _ Hr Hj) as (w2 & Hw2 & He);
             rewrite Hw2 in Hb; inversion Hb; subst; auto; fail).
      destruct (while_loop_frame _ _ _ _ _ _ _ H) as (_ & [taken Htaken] & _).
      assert (Hall : received w w1 = r :: taken).
      { apply received_taken. rewrite Hr, Htaken. reflexivity. }
      rewrite Hall in Hin. destruct Hin as [Hin|Hin].
      * subst r.
        destruct (fatal_step token since v w j _ Hr Hj) as (w2 & Hw2 & He).
        rewrite Hw2 in Hb. inversion Hb.
      * rewrite <- (received_taken w' w1 taken Htaken) in Hin.
        destruct (IH _ _ _ _ H j Hin Hj) as (Ho & He).
        split; auto. rewrite He. now rewrite (Herr _ eq_refl).
Qed.

(** A fatal reply that [main] receives ends the process with status 1,
    its message being all there is on the error stream, and standard output
    empty. *)
Lemma fatal_in_main tok days now script o w1 j :
  main tok days now (start script) = (o, w1) ->
  In (HttpOk j) (received (start script) w1) ->
  fatal j ->
  o = SysExit 1 /\ out w1 = EmptyString /\ err w1 = message j ++ nl.
Proof.
  intros H Hin Hj.
  destruct (main_inv _ _ _ _ _ _ H)
    as [(Hw & _) | [(e & Hw & _) | (token & since & o' & w' & _ & _ & Hf & Ho)]].
  - subst w1. unfold received in Hin. cbn in Hin.
    rewrite Nat.sub_diag in Hin. destruct Hin.
  - subst w1. unfold received in Hin. rewrite Nat.sub_diag in Hin. destruct Hin.
  - assert (Hrec : received (start script) w1 = received (start script) w').
    { destruct o'; destruct Ho as (_ & ->); reflexivity. }
    rewrite Hrec in Hin.
    unfold fetch_prs in Hf.
    destruct (fatal_in_loop _ _ _ _ _ _ _ Hf j Hin Hj) as (Ho' & He).
    destruct (while_loop_frame _ _ _ _ _ _ _ Hf) as (Hout & _).
    subst o'. destruct Ho as (-> & ->). auto.
Qed.

End Fatal.

(** ** The walk over pages of the API *)

Lemma in_window_instant c n :
  in_window c n = true ->
  exists d o, fromisoformat (replace_Z (updatedAt n)) = Some d /\
              utcoffset d = Some o /\ c <= wall d - o.
Proof.
  unfold in_window, updated_instant. intros H.
  destruct (fromisoformat (replace_Z (updatedAt n))) as [d|]; [|discriminate].
  destruct (utcoffset d) as [o|] eqn:Ho; [|discriminate].
  exists d, o. repeat split; auto. now apply Z.leb_le.
Qed.

Lemma old_instant c n :
  timed n -> in_window c n = false ->
  exists d o, fromisoformat (replace_Z (updatedAt n)) = Some d /\
              utcoffset d = Some o /\ wall d - o < c.
Proof.
  unfold timed, in_window, updated_instant. intros [t Ht] H.
  destruct (fromisoformat (replace_Z (updatedAt n))) as [d|]; [|discriminate].
  destruct (utcoffset d) as [o|] eqn:Ho; [|discriminate].
  exists d, o. repeat split; auto. now apply Z.leb_gt.
Qed.

(** A node inside the window is visited, gives its row when it is merged
    or open, and the loop goes on. *)
Lemma for_nodes_in_window c n tail acc sc :
  in_window c n = true ->
  for_nodes (utc c) (node_json n :: tail) acc sc =
  for_nodes (utc c) tail
    (if merged_or_open n then acc ++ [row_of n] else acc)%list sc.
Proof.
  intros H. destruct (in_window_instant _ _ H) as (d & o & Hd & Ho & Hle).
  cbn. unfold parse_datetime. rewrite Hd. cbn. unfold dt_lt. rewrite Ho. cbn.
  replace (wall d - o <? c - 0) with false
    by (symmetry; apply Z.ltb_ge; lia).
  unfold merged_or_open, is_open, row_of.
  destruct (merged n); cbn; [reflexivity|].
  destruct (String.eqb (state n) "OPEN"); reflexivity.
Qed.

(** The first node older than the cutoff ends the loop over the page. *)
Lemma for_nodes_old c n tail acc sc :
  timed n -> in_window c n = false ->
  for_nodes (utc c) (node_json n :: tail) acc sc = Val (acc, false).
Proof.
  intros Ht H. destruct (old_instant _ _ Ht H) as (d & o & Hd & Ho & Hlt).
  cbn. unfold parse_datetime. rewrite Hd. cbn. unfold dt_lt. rewrite Ho. cbn.
  replace (wall d - o <? c - 0) with true
    by (symmetry; apply Z.ltb_lt; lia).
  reflexivity.
Qed.

Lemma for_nodes_prefix c pre :
  forall tail acc sc,
    Forall (fun n => in_window c n = true) pre ->
    for_nodes (utc c) (map node_json pre ++ tail) acc sc =
    for_nodes (utc c) tail (acc ++ map row_of (filter merged_or_open pre))%list sc.
Proof.
  induction pre as [|n pre IH]; intros tail acc sc H.
  - cbn. now rewrite app_nil_r.
  - inversion H; subst. cbn [map app].
    rewrite for_nodes_in_window by assumption.
    rewrite IH by assumption. cbn [filter].
    destruct (merged_or_open n); cbn [map]; [|reflexivity].
    now rewrite <- app_assoc.
Qed.

Lemma for_nodes_page c l :
  forall acc sc,
    Forall timed l ->
    for_nodes (utc c) (map node_json l) acc sc =
    Val ((acc ++ map row_of (filter merged_or_open (fresh c l)))%list,
         sc && all_fresh c l).
Proof.
  induction l as [|n l IH]; intros acc sc H.
  - cbn. now rewrite app_nil_r, andb_true_r.
  - inversion H; subst. cbn [map fresh all_fresh forallb].
    destruct (in_window c n) eqn:Hw.
    + rewrite for_nodes_in_window by assumption.
      rewrite IH by assumption. cbn [filter andb].
      destruct (merged_or_open n); cbn [map]; [|reflexivity].
      now rewrite <- app_assoc.
    + rewrite for_nodes_old by assumption.
      cbn. now rewrite app_nil_r, andb_false_r.
Qed.

(** An iteration on a page whose nodes the inner loop gets through. *)
Lemma loop_body_page token c v w p rest prs sc :
  replies w = page_reply p :: rest ->
  for_nodes (utc c) (map node_json (nodes p)) (all_prs v) (should_continue v)
    = Val (prs, sc) ->
  loop_body token (utc c) v w =
  (Done (if hasNextPage p && sc
         then inl {| all_prs := prs; cursor := opt_str (endCursor p);
                     should_continue := sc |}
         else inr prs),
   {| replies := rest;
      sent := sent w ++ [request_of token (utc c) (cursor v)];
      out := out w; err := err w |}).
Proof.
  intros Hr Hf. unfold loop_body, bind, fetch_graphql. rewrite Hr.
  unfold page_reply, page_json. cbn -[query for_nodes].
  rewrite Hf. cbn -[query].
  destruct (hasNextPage p), sc; reflexivity.
Qed.

Lemma listing_ends_tail p rest :
  listing_ends (p :: rest) -> hasNextPage p = true -> listing_ends rest.
Proof.
  intros (front & final & Heq & Hfinal) Hp.
  destruct front as [|q front]; cbn in Heq; inversion Heq; subst.
  - congruence.
  - exists front, final. auto.
Qed.

Lemma listing_ends_cons pages : listing_ends pages -> pages <> [].
Proof. intros (front & final & -> & _). now destruct front. Qed.

(** The walk over a listing of timed pages: it reads [k] pages, one request
    each, and returns the rows of the merged or open nodes that come before
    the first old node of their page. *)
Lemma walk_pages token c :
  forall pages v w,
    should_continue v = true ->
    replies w = map page_reply pages ->
    listing_ends pages ->
    Forall (fun p => Forall timed (nodes p)) pages ->
    exists k w1,
      (1 <= k <= length pages)%nat /\
      replies w1 = map page_reply (skipn k pages) /\
      length (sent w1) = (length (sent w) + k)%nat /\
      out w1 = out w /\ err w1 = err w /\
      forall fuel, (length pages <= fuel)%nat ->
        while_loop fuel token (utc c) v w =
        (Done (all_prs v ++
               map row_of (filter merged_or_open
                 (flat_map (fun p => fresh c (nodes p)) (firstn k pages))))%list,
         w1).
Proof.
  induction pages as [|p rest IH]; intros v w Hsc Hr Hends Htimed.
  - now apply listing_ends_cons in Hends.
  - inversion Htimed as [|? ? Hp Hrest]; subst.
    pose proof (for_nodes_page c (nodes p) (all_prs v) (should_continue v) Hp) as Hfor.
    cbn [map] in Hr.
    pose proof (loop_body_page token c v w p (map page_reply rest) _ _ Hr Hfor) as Hbody.
    rewrite Hsc in Hbody. cbn [andb] in Hbody.
    destruct (hasNextPage p && all_fresh c (nodes p)) eqn:Hnext.
    + apply andb_prop in Hnext. destruct Hnext as [Hnp Hfresh].
      set (v' := {| all_prs := (all_prs v ++
                      map row_of (filter merged_or_open (fresh c (nodes p))))%list;
                    cursor := opt_str (endCursor p);
                    should_continue := all_fresh c (nodes p) |}) in *.
      set (w' := {| replies := map page_reply rest;
                    sent := (sent w ++ [request_of token (utc c) (cursor v)])%list;
                    out := out w; err := err w |}) in *.
      destruct (IH v' w' Hfresh eq_refl (listing_ends_tail _ _ Hends Hnp) Hrest)
        as (k & w1 & Hk & Hrep & Hsent & Hout & Herr & Hrun).
      exists (S k), w1. cbn [length skipn firstn flat_map].
      split; [lia|]. split; [exact Hrep|].
      split; [rewrite Hsent; subst w'; cbn; rewrite length_app; cbn; lia|].
      split; [exact Hout|]. split; [exact Herr|].
      intros fuel Hfuel. destruct fuel as [|fuel]; [lia|].
      cbn [while_loop]. rewrite Hsc. unfold bind. rewrite Hbody.
      rewrite Hrun by lia. subst v'. cbn [all_prs].
      now rewrite filter_app, map_app, app_assoc.
    + exists 1%nat.
      exists {| replies := map page_reply rest;
                sent := (sent w ++ [request_of token (utc c) (cursor v)])%list;
                out := out w; err := err w |}.
      cbn [length skipn firstn flat_map].
      split; [lia|]. split; [reflexivity|]. cbn [sent out err].
      split; [rewrite length_app; cbn; lia|].
      split; [reflexivity|]. split; [reflexivity|].
      intros fuel Hfuel. destruct fuel as [|fuel]; [lia|].
      cbn [while_loop]. rewrite Hsc. unfold bind. rewrite Hbody. unfold ret.
      now rewrite app_nil_r.
Qed.

(** The walk over a listing of timed pages, exactly. *)
Lemma walk_exact token c :
  forall pages v w,
    should_continue v = true ->
    replies w = map page_reply pages ->
    listing_ends pages ->
    Forall (fun p => Forall timed (nodes p)) pages ->
    forall fuel, (length pages <= fuel)%nat ->
      while_loop fuel token (utc c) v w =
      (Done (all_prs v ++
             map row_of (filter merged_or_open
               (flat_map (fun p => fresh c (nodes p))
                         (firstn (pages_read c pages) pages))))%list,
       {| replies := map page_reply (skipn (pages_read c pages) pages);
          sent := sent w ++ map (request_of token (utc c))
                    (front_cursors (cursor v) (firstn (pages_read c pages) pages));
          out := out w; err := err w |}).
Proof.
  induction pages as [|p rest IH]; intros v w Hsc Hr Hends Htimed fuel Hfuel.
  - now apply listing_ends_cons in Hends.
  - inversion Htimed as [|? ? Hp Hrest]; subst.
    pose proof (for_nodes_page c (nodes p) (all_prs v) (should_continue v) Hp) as Hfor.
    cbn [map] in Hr.
    pose proof (loop_body_page token c v w p (map page_reply rest) _ _ Hr Hfor) as Hbody.
    rewrite Hsc in Hbody. cbn [andb] in Hbody.
    destruct fuel as [|fuel]; [cbn in Hfuel; lia|].
    cbn [while_loop pages_read]. rewrite Hsc. unfold bind. rewrite Hbody.
    destruct (hasNextPage p && all_fresh c (nodes p)) eqn:Hnext.
    + apply andb_prop in Hnext. destruct Hnext as [Hnp Hfresh].
      rewrite IH; [|exact Hfresh|reflexivity|
                   exact (listing_ends_tail _ _ Hends Hnp)|exact Hrest|cbn in Hfuel; lia].
      cbn [all_prs cursor sent out err firstn skipn flat_map front_cursors map].
      f_equal; [f_equal|f_equal].
      * now rewrite filter_app, map_app, app_assoc.
      * now rewrite <- app_assoc.
    + unfold ret. cbn [firstn skipn flat_map front_cursors map].
      now rewrite app_nil_r.
Qed.

Lemma pages_read_bounds c pages :
  pages <> [] -> (1 <= pages_read c pages <= length pages)%nat.
Proof.
  induction pages as [|p rest IH]; intros Hne; [congruence|].
  cbn [pages_read length]. destruct (hasNextPage p && all_fresh c (nodes p)).
  - destruct rest as [|q rest]; [cbn; lia|].
    assert (q :: rest <> []) by discriminate. specialize (IH H). lia.
  - lia.
Qed.

(** The walk up to the first node older than the cutoff: the pages before
    it are read whole, its own page up to it, and whatever the network holds
    after that page stays there. *)
Lemma walk_until_old token c p pre n post script :
  nodes p = (pre ++ n :: post)%list ->
  Forall (fun m => in_window c m = true) pre ->
  timed n -> in_window c n = false ->
  forall front v w,
    should_continue v = true ->
    replies w = (map page_reply front ++ page_reply p :: script)%list ->
    Forall (fun q => hasNextPage q = true /\
                     Forall (fun m => in_window c m = true) (nodes q)) front ->
    forall fuel, (length front < fuel)%nat ->
      while_loop fuel token (utc c) v w =
      (Done (all_prs v ++
             map row_of (filter merged_or_open (flat_map nodes front ++ pre)))%list,
       {| replies := script;
          sent := sent w ++ map (request_of token (utc c))
                    (cursor v :: map (fun q => opt_str (endCursor q)) front);
          out := out w; err := err w |}).
Proof.
  intros Hp Hpre Ht Hold.
  induction front as [|q front IH]; intros v w Hsc Hr Hfront fuel Hfuel;
    (destruct fuel as [|fuel]; [cbn in Hfuel; lia|]);
    cbn [while_loop]; rewrite Hsc; unfold bind.
  - cbn [map app] in Hr.
    assert (Hfor : for_nodes (utc c) (map node_json (nodes p)) (all_prs v)
                     (should_continue v)
                   = Val ((all_prs v ++ map row_of (filter merged_or_open pre))%list,
                          false)).
    { rewrite Hp, map_app. cbn [map].
      rewrite for_nodes_prefix by assumption.
      now apply for_nodes_old. }
    rewrite (loop_body_page token c v w p _ _ _ Hr Hfor).
    rewrite andb_false_r. reflexivity.
  - cbn [map app] in Hr. inversion Hfront as [|? ? [Hq Hqn] Hfront']; subst.
    assert (Hfor : for_nodes (utc c) (map node_json (nodes q)) (all_prs v)
                     (should_continue v)
                   = Val ((all_prs v ++ map row_of (filter merged_or_open (nodes q)))%list,
                          true)).
    { rewrite <- (app_nil_r (map node_json (nodes q))).
      rewrite for_nodes_prefix by assumption. cbn. now rewrite Hsc. }
    rewrite (loop_body_page token c v w q _ _ _ Hr Hfor).
    rewrite Hq. cbn [andb].
    rewrite IH; [|reflexivity|reflexivity|assumption|cbn in Hfuel; lia].
    cbn [all_prs cursor sent out err flat_map map].
    f_equal; [f_equal|f_equal].
    + rewrite <- (app_assoc (nodes q)), (filter_app _ (nodes q)), map_app.
      now rewrite app_assoc.
    + now rewrite <- app_assoc.
Qed.

Lemma filter_flat_map {A B} (f : B -> bool) (g : A -> list B) (l : list A) :
  filter f (flat_map g l) = flat_map (fun x => filter f (g x)) l.
Proof.
  induction l as [|x l IH]; cbn; [reflexivity|].
  now rewrite filter_app, IH.
Qed.

(** On a page sorted newest first, the nodes kept from before the first old
    one are the nodes of the page the window filter retains. *)
Lemma fresh_retained c l :
  Forall timed l -> descending l ->
  filter merged_or_open (fresh c l) = filter (retained c) l.
Proof.
  intros Ht Hd. unfold descending in Hd.
  apply Sorted_StronglySorted in Hd; [|intros x y z Hxy Hyz; lia].
  induction l as [|n l IH]; [reflexivity|].
  inversion Ht as [|? ? Hn Hl]; subst.
  apply StronglySorted_inv in Hd. destruct Hd as [Hd Hle].
  cbn [fresh filter]. unfold retained at 1.
  destruct (in_window c n) eqn:Hw; cbn [andb filter].
  - rewrite IH by assumption. reflexivity.
  - symmetry. clear IH Hd Ht.
    assert (Hstamp : stamp n < c).
    { destruct (old_instant _ _ Hn Hw) as (d & o & Hd & Ho & Hlt).
      unfold stamp, updated_instant. now rewrite Hd, Ho. }
    induction l as [|m l IHl]; [reflexivity|].
    inversion Hl as [|? ? Hm Hl']; subst.
    inversion Hle as [|? ? Hmn Hle']; subst.
    assert (Hout : in_window c m = false).
    { destruct Hm as [t Hm]. unfold in_window. rewrite Hm.
      apply Z.leb_gt. unfold stamp in Hmn at 1. rewrite Hm in Hmn. lia. }
    cbn [filter]. unfold retained at 1. rewrite Hout. cbn [andb].
    now apply IHl.
Qed.

(** The fuel [fetch_prs] gives the loop is never used up. *)
Lemma while_loop_fuel token since fuel :
  forall v w o w1,
    while_loop fuel token since v w = (o, w1) ->
    (length (replies w) < fuel)%nat ->
    o <> OutOfFuel.
Proof.
  induction fuel as [|fuel IH]; intros v w o w1 H Hlt; [lia|].
  cbn in H. destruct (should_continue v).
  2:{ unfold ret in H. inversion H. discriminate. }
  unfold bind in H.
  destruct (loop_body token since v w) as [o' w'] eqn:Hb.
  destruct (loop_body_frame _ _ _ _ _ _ Hb) as (_ & _ & Hrep & _).
  pose proof Hb as Hb'.
  unfold loop_body, bind, fetch_graphql, lift, print_err, sys_exit, ret in Hb'.
  destruct o' as [[v'|prs]| | | |]; try (inversion H; discriminate).
  - destruct Hrep as [(_ & _ & Ho) | [r Hr]]; [discriminate|].
    apply (IH _ _ _ _ H). rewrite Hr in Hlt. cbn in Hlt. lia.
  - exfalso. clear -Hb'.
    destruct (replies w) as [|[body|e body] rest];
      cbn [fst snd replies sent out err] in Hb'; try discriminate.
    + run_in Hb'; discriminate.
    + unfold bind, lift, decode_utf8, print_err, sys_exit in Hb'.
      cbn [fst snd replies sent out err] in Hb'.
      destruct (utf8_valid body); discriminate.
Qed.

(** A run that ended keeps its result under any larger bound. *)
Lemma while_loop_more_fuel token since fuel :
  forall v w o w1,
    while_loop fuel token since v w = (o, w1) ->
    o <> OutOfFuel ->
    forall fuel', (fuel <= fuel')%nat ->
      while_loop fuel' token since v w = (o, w1).
Proof.
  induction fuel as [|fuel IH]; intros v w o w1 H Ho fuel' Hle.
  - cbn in H. inversion H; subst. now contradiction Ho.
  - destruct fuel' as [|fuel']; [lia|].
    cbn [while_loop] in *. destruct (should_continue v); [|exact H].
    unfold bind in *.
    destruct (loop_body token since v w) as [[[v'|prs]| | | |] w']; try exact H.
    apply (IH _ _ _ _ H Ho). lia.
Qed.

Lemma errors_step token since v w j rest :
  replies w = HttpOk j :: rest ->
  (exists e, errors_of j = Some e) ->
  exists w1,
    loop_body token since v w = (SysExit 1, w1) /\
    err w1 = err w ++ errors_message j ++ nl.
Proof.
  intros Hr [e He]. unfold errors_message. rewrite He.
  destruct j; try discriminate. cbn in He.
  unfold loop_body, bind, fetch_graphql. rewrite Hr.
  cbn -[query]. rewrite He. cbn -[query].
  eexists. split; reflexivity.
Qed.

Lemma unavailable_step token since v w j rest :
  replies w = HttpOk j :: rest ->
  repository_unavailable j ->
  exists w1,
    loop_body token since v w = (SysExit 1, w1) /\
    err w1 = err w ++ (fun _ => "Repository not accessible") j ++ nl.
Proof.
  intros Hr Hj. destruct j; try contradiction.
  destruct Hj as (He & Hd).
  unfold loop_body, bind, fetch_graphql. rewrite Hr.
  cbn -[query]. rewrite He. cbn -[query]. unfold repository_missing.
  destruct Hd as [Hd | (data & r & Hd & Hrepo & Hr0)].
  - cbn -[query]. rewrite Hd. cbn -[query]. eexists. split; reflexivity.
  - cbn -[query]. rewrite Hd. cbn -[query]. rewrite Hrepo. cbn -[query].
    rewrite Hr0. cbn -[query]. eexists. split; reflexivity.
Qed.

Lemma fresh_pages_retained c pages :
  Forall (fun p => Forall timed (nodes p) /\ descending (nodes p)) pages ->
  filter merged_or_open (flat_map (fun p => fresh c (nodes p)) pages) =
  filter (retained c) (flat_map nodes pages).
Proof.
  induction 1 as [|p pages [Ht Hd] _ IH]; [reflexivity|].
  cbn [flat_map]. rewrite !filter_app, IH. f_equal.
  now apply fresh_retained.
Qed.

Lemma fresh_incl c l : incl (fresh c l) l.
Proof.
  induction l as [|n l IH]; cbn; [apply incl_refl|].
  destruct (in_window c n).
  - intros x [->|Hx]; [now left|right; now apply IH].
  - intros x [].
Qed.

Lemma fresh_pages_incl c pages :
  incl (flat_map (fun p => fresh c (nodes p)) pages) (flat_map nodes pages).
Proof.
  induction pages as [|p pages IH]; cbn [flat_map]; [apply incl_refl|].
  apply incl_app.
  - apply incl_appl. apply fresh_incl.
  - apply incl_appr. exact IH.
Qed.

(** ** The claims *)

(** C3.  A response with a non-empty top-level [errors] array that the
    process receives is fatal: the errors are written to the error stream,
    the process exits with status 1, and standard output stays empty, the
    header row included. *)
Theorem errors_array_fatal tok days now script o w1 fields e es :
  main tok days now (start script) = (o, w1) ->
  In (HttpOk (JObj fields)) (received (start script) w1) ->
  lookup "errors" fields = Some (JArr (e :: es)) ->
  o = SysExit 1 /\
  exit_status o = Some 1 /\
  out w1 = EmptyString /\
  err w1 = "GraphQL errors: " ++ py_str (JArr (e :: es)) ++ nl.
Proof.
  intros H Hin He.
  destruct (fatal_in_main (fun j => exists x, errors_of j = Some x) errors_message
              errors_step _ _ _ _ _ _ _ H Hin) as (Ho & Hout & Herr).
  { exists (JArr (e :: es)). exact He. }
  subst o. repeat split; auto.
  rewrite Herr. unfold errors_message. cbn [errors_of]. now rewrite He.
Qed.

(** C9.  The test is for the key alone: a response object with an [errors]
    key is fatal whatever the key holds, the empty array included, with
    nothing on standard output and exit status 1. *)
Theorem errors_key_fatal tok days now script o w1 fields held :
  main tok days now (start script) = (o, w1) ->
  In (HttpOk (JObj fields)) (received (start script) w1) ->
  lookup "errors" fields = Some held ->
  o = SysExit 1 /\
  exit_status o = Some 1 /\
  out w1 = EmptyString /\
  err w1 = "GraphQL errors: " ++ py_str held ++ nl.
Proof.
  intros H Hin He.
  destruct (fatal_in_main (fun j => exists x, errors_of j = Some x) errors_message
              errors_step _ _ _ _ _ _ _ H Hin) as (Ho & Hout & Herr).
  { exists held. exact He. }
  subst o. repeat split; auto.
  rewrite Herr. unfold errors_message. cbn [errors_of]. now rewrite He.
Qed.

(** C7, as amended.  A response object without an [errors] key that has no
    [data] key, or whose [data] object holds a null repository, makes the
    process report that the repository is not accessible and exit with
    status 1. *)
Theorem repository_not_accessible tok days now script o w1 j :
  main tok days now (start script) = (o, w1) ->
  In (HttpOk j) (received (start script) w1) ->
  repository_unavailable j ->
  o = SysExit 1 /\
  out w1 = EmptyString /\
  reports_not_accessible (o, w1).
Proof.
  intros H Hin Hj.
  destruct (fatal_in_main repository_unavailable (fun _ => "Repository not accessible")
              unavailable_step _ _ _ _ _ _ _ H Hin Hj) as (Ho & Hout & Herr).
  subst o. repeat split; auto.
  exists 1. split; [reflexivity|discriminate].
Qed.

(** C8, as amended.  Every request carries a JSON object with the fixed
    document under [query] and, under [variables], an object with exactly
    the four keys owner, repo, cursor and since. *)
Theorem request_body_shape tok days now script o w1 req :
  main tok days now (start script) = (o, w1) ->
  In req (sent w1) ->
  exists since c,
    since_date_of now days = Val since /\
    req_body req =
      JObj [("query", JStr query);
            ("variables", JObj [("owner", JStr "NixOS");
                                ("repo", JStr "nixpkgs");
                                ("cursor", c);
                                ("since", JStr (isoformat since))])] /\
    variable_names req = ["owner"; "repo"; "cursor"; "since"].
Proof.
  intros H Hin.
  destruct (main_inv _ _ _ _ _ _ H)
    as [(Hw & _) | [(e & Hw & _) | (token & since & o' & w' & _ & Hs & Hf & Ho)]].
  - subst w1. destruct Hin.
  - subst w1. destruct Hin.
  - assert (Hsent : sent w1 = sent w').
    { destruct o'; destruct Ho as (_ & ->); reflexivity. }
    rewrite Hsent in Hin. unfold fetch_prs in Hf.
    destruct (while_loop_frame _ _ _ _ _ _ _ Hf) as (_ & _ & [cs Hcs]).
    rewrite Hcs in Hin. cbn in Hin. apply in_map_iff in Hin.
    destruct Hin as (c & <- & _).
    exists since, c. repeat split; auto.
Qed.

(** C4.  With GITHUB_TOKEN unset or empty the process writes an error to
    the error stream and exits with status 1; no request was sent and the
    network was not touched. *)
Theorem missing_token_fatal tok days now script o w1 :
  tok = None \/ tok = Some EmptyString ->
  main tok days now (start script) = (o, w1) ->
  o = SysExit 1 /\
  exit_status o = Some 1 /\
  sent w1 = [] /\
  replies w1 = script /\
  out w1 = EmptyString /\
  err w1 = "Error: GITHUB_TOKEN environment variable is required" ++ nl.
Proof.
  intros [-> | ->] H; cbn in H; inversion H; subst; cbn; repeat split.
Qed.

(** C5.  A run that succeeds printed the header row
    [title,link,merged,updated] first and then the rows of the records
    [fetch_prs] returned; with no record the output is the header row and
    nothing else. *)
Theorem header_always tok days now script w1 :
  main tok days now (start script) = (Done tt, w1) ->
  exists token since prs w',
    tok = Some token /\
    since_date_of now days = Val since /\
    fetch_prs token since (start script) = (Done prs, w') /\
    out w1 = ("title,link,merged,updated" ++ nl) ++ csv_rows prs /\
    (prs = [] -> out w1 = "title,link,merged,updated" ++ nl).
Proof.
  intros H.
  destruct (main_inv _ _ _ _ _ _ H)
    as [(_ & Ho & _) | [(e & _ & Ho & _) | (token & since & o' & w' & Ht & Hs & Hf & Ho)]];
    try discriminate.
  destruct o' as [prs| | | |]; try (destruct Ho; discriminate).
  destruct Ho as (Ho & ->). cbn [out].
  destruct (encodable header_line); [|discriminate].
  destruct (all_encodable prs) eqn:Hall; [|discriminate].
  rewrite (written_all _ Hall).
  unfold fetch_prs in Hf.
  destruct (while_loop_frame _ _ _ _ _ _ _ Hf) as (Hout & _).
  exists token, since, prs, w'. rewrite Hout. cbn [start out].
  repeat split; auto.
  intros ->. reflexivity.
Qed.

(** C1, as amended.  When the nodes of every page come newest first, the
    rows returned are those of the window filter: each fetched node updated
    at or after the cutoff gives exactly one row if it is merged or open,
    and no other fetched node gives a row. *)
Theorem window_filter_descending token c pages :
  Forall (fun p => Forall timed (nodes p) /\ descending (nodes p)) pages ->
  listing_ends pages ->
  exists rows w1,
    fetch_prs token (utc c) (start (map page_reply pages)) = (Done rows, w1) /\
    window_filter c (fetched_nodes (length (sent w1)) pages) rows.
Proof.
  intros Hpages Hends.
  assert (Htimed : Forall (fun p => Forall timed (nodes p)) pages).
  { eapply Forall_impl; [|exact Hpages]. now intros p [Ht _]. }
  destruct (walk_pages token c pages entry (start (map page_reply pages))
              eq_refl eq_refl Hends Htimed)
    as (k & w1 & Hk & _ & Hsent & _ & _ & Hrun).
  eexists. exists w1. split.
  - unfold fetch_prs. apply Hrun. cbn. rewrite length_map. lia.
  - cbn in Hsent. rewrite Hsent. cbn [entry all_prs app].
    unfold window_filter, fetched_nodes. f_equal.
    apply fresh_pages_retained.
    rewrite <- (firstn_skipn k pages) in Hpages.
    now apply Forall_app in Hpages.
Qed.

(** C2.  When the loop meets the first node older than the cutoff, after
    pages of newer nodes that each announce a next page and after the newer
    nodes [pre] of its own page, it returns: the rows come from the nodes
    before it only, one request was sent for each page up to this one, and
    what the network holds after this page is left there, whatever the page
    says of a next page. *)
Theorem stops_at_first_old token c front p pre n post script :
  Forall (fun q => hasNextPage q = true /\
                   Forall (fun m => in_window c m = true) (nodes q)) front ->
  nodes p = (pre ++ n :: post)%list ->
  Forall (fun m => in_window c m = true) pre ->
  timed n ->
  in_window c n = false ->
  exists w1,
    fetch_prs token (utc c)
      (start (map page_reply front ++ page_reply p :: script)) =
    (Done (map row_of (filter merged_or_open (flat_map nodes front ++ pre))), w1) /\
    replies w1 = script /\
    length (sent w1) = S (length front) /\
    received (start (map page_reply front ++ page_reply p :: script)) w1
      = (map page_reply front ++ [page_reply p])%list.
Proof.
  intros Hfront Hp Hpre Ht Hold.
  eexists. split; [|split; [|split]].
  - unfold fetch_prs.
    rewrite (walk_until_old token c p pre n post script Hp Hpre Ht Hold
               front entry
               (start (map page_reply front ++ page_reply p :: script))
               eq_refl eq_refl Hfront).
    + reflexivity.
    + cbn. rewrite length_app, length_map. cbn. lia.
  - reflexivity.
  - cbn. now rewrite !length_map.
  - apply received_taken. cbn. now rewrite <- app_assoc.
Qed.

(** C6.  The rows returned pair, in order, with the merged or open nodes
    read before the first old node of each fetched page; the row of a node
    holds that node's title, url and timestamp, and its merged cell reads
    [true] when the node is merged and [false] when it is not, in the record
    and as the third field of the CSV line alike. *)
Theorem merged_cell_text token c pages :
  Forall (fun p => Forall timed (nodes p)) pages ->
  listing_ends pages ->
  exists rows w1,
    fetch_prs token (utc c) (start (map page_reply pages)) = (Done rows, w1) /\
    Forall2 (fun n r =>
               r_title r = JStr (title n) /\
               r_link r = JStr (url n) /\
               r_updated r = JStr (updatedAt n) /\
               r_merged r = (if merged n then "true" else "false") /\
               nth_error (map csv_field (row_values r)) 2
                 = Some (if merged n then "true" else "false"))
            (filter merged_or_open
               (flat_map (fun p => fresh c (nodes p))
                         (firstn (pages_read c pages) pages)))
            rows.
Proof.
  intros Htimed Hends. eexists. eexists. split.
  - unfold fetch_prs.
    apply (walk_exact token c pages entry (start (map page_reply pages))
             eq_refl eq_refl Hends Htimed).
    cbn. rewrite length_map. lia.
  - cbn [entry all_prs app].
    induction (filter merged_or_open
                 (flat_map (fun p => fresh c (nodes p))
                           (firstn (pages_read c pages) pages)))
      as [|n l IH]; cbn [map]; constructor; auto.
    cbn. destruct (merged n); repeat split; reflexivity.
Qed.

(** C10.  On a finite listing of pages the loop returns, and it does so
    within one iteration per page: fuel for as many iterations as there are
    pages is enough, each request sent took one page off the listing, and
    no more requests were sent than there are pages. *)
Theorem pagination_terminates token c pages :
  Forall (fun p => Forall timed (nodes p)) pages ->
  listing_ends pages ->
  exists rows w1,
    (forall fuel, (length pages <= fuel)%nat ->
       while_loop fuel token (utc c) entry (start (map page_reply pages))
         = (Done rows, w1)) /\
    fetch_prs token (utc c) (start (map page_reply pages)) = (Done rows, w1) /\
    (length (sent w1) <= length pages)%nat /\
    replies w1 = map page_reply (skipn (length (sent w1)) pages).
Proof.
  intros Htimed Hends.
  destruct (walk_pages token c pages entry (start (map page_reply pages))
              eq_refl eq_refl Hends Htimed)
    as (k & w1 & Hk & Hrep & Hsent & _ & _ & Hrun).
  eexists. exists w1. split; [|split; [|split]].
  - exact Hrun.
  - unfold fetch_prs. apply Hrun. cbn. rewrite length_map. lia.
  - cbn in Hsent. lia.
  - cbn in Hsent. now rewrite Hsent.
Qed.

(** ** Further properties of the script *)

(** *** Endings, whatever the replies *)

Lemma while_loop_done_err token since fuel :
  forall v w prs w1,
    while_loop fuel token since v w = (Done prs, w1) -> err w1 = err w.
Proof.
  induction fuel as [|fuel IH]; intros v w prs w1 H; cbn in H; [discriminate|].
  destruct (should_continue v).
  2:{ unfold ret in H. now inversion H. }
  unfold bind in H.
  destruct (loop_body token since v w) as [o' w'] eqn:Hb.
  destruct (loop_body_frame _ _ _ _ _ _ Hb) as (_ & _ & _ & Herr).
  destruct o' as [[v'|prs']| | | |]; try discriminate.
  - rewrite (IH _ _ _ _ H). now apply (Herr (inl v')).
  - unfold ret in H. inversion H; subst. now apply (Herr (inr prs)).
Qed.

Lemma http_error_err (a e body : string) :
  (a ++ ("Error fetching from GitHub API: " ++ e) ++ nl) ++ ("Response: " ++ body) ++ nl
  = a ++ http_error_text e body.
Proof. unfold http_error_text. rewrite !append_assoc. reflexivity. Qed.

Lemma errors_of_getitem j e :
  getitem j "errors" = Val e -> errors_of j = Some e.
Proof.
  destruct j; try discriminate. cbn.
  destruct (lookup "errors" fields); [|discriminate]. now intros [= ->].
Qed.

Lemma errors_of_absent j :
  contains "errors" j = Val false -> errors_of j = None.
Proof.
  destruct j; try reflexivity. cbn.
  destruct (lookup "errors" fields); [discriminate|reflexivity].
Qed.

(** An iteration that ends in [sys.exit] exits with 1, having written the
    message of the reply it took. *)
Lemma loop_body_exit token since v w code w1 :
  loop_body token since v w = (SysExit code, w1) ->
  code = 1 /\
  exists r, replies w = r :: replies w1 /\ err w1 = err w ++ exit_message r.
Proof.
  unfold loop_body, bind, fetch_graphql, lift, print_err, sys_exit, ret.
  intros H.
  destruct (replies w) as [|[body|e body] rest] eqn:Hr;
    cbn [fst snd replies sent out err] in H.
  - discriminate.
  - run_in H; inversion H; subst; cbn [err replies]; (split; [reflexivity|]);
      eexists; (split; [reflexivity|]); cbn [exit_message].
    + match goal with Hg : getitem body "errors" = Val _ |- _ =>
        now rewrite (errors_of_getitem _ _ Hg) end.
    + match goal with Hc : contains "errors" body = Val false |- _ =>
        now rewrite (errors_of_absent _ Hc) end.
  - unfold bind, lift, decode_utf8, print_err, sys_exit in H.
    cbn [fst snd replies sent out err] in H.
    destruct (utf8_valid body); inversion H; subst; cbn [err replies].
    split; [reflexivity|]. eexists. split; [reflexivity|].
    exact (http_error_err (err w) e body).
Qed.

Lemma while_loop_exit token since fuel :
  forall v w code w1,
    while_loop fuel token since v w = (SysExit code, w1) ->
    code = 1 /\
    exists before r,
      replies w = (before ++ r :: replies w1)%list /\
      err w1 = err w ++ exit_message r.
Proof.
  induction fuel as [|fuel IH]; intros v w code w1 H; cbn in H; [discriminate|].
  destruct (should_continue v); [|discriminate].
  unfold bind in H.
  destruct (loop_body token since v w) as [o' w'] eqn:Hb.
  destruct (loop_body_frame _ _ _ _ _ _ Hb) as (_ & _ & Hrep & Herr).
  destruct o' as [[v'|prs']| | | |]; try discriminate.
  - destruct (IH _ _ _ _ H) as (Hc & before & r & Hr & Hs).
    split; [exact Hc|].
    destruct Hrep as [(_ & _ & Ho) | [r0 Hr0]]; [discriminate|].
    exists (r0 :: before), r. split.
    + rewrite Hr0, Hr. reflexivity.
    + rewrite Hs. now rewrite (Herr (inl v')).
  - inversion H; subst.
    destruct (loop_body_exit _ _ _ _ _ _ Hb) as (Hc & r & Hr & Hs).
    split; [exact Hc|]. exists [], r. auto.
Qed.

Section Ending.

Variable ends : http_reply -> Prop.
Variable ending : http_reply -> stop.
Variable message : http_reply -> string.

Hypothesis ends_step :
  forall token since v w r rest,
    replies w = r :: rest ->
    ends r ->
    exists w1,
      loop_body token since v w = (stopped (ending r), w1) /\
      err w1 = err w ++ message r.

Lemma ending_in_loop token since fuel :
  forall v w o w1,
    while_loop fuel token since v w = (o, w1) ->
    forall r, In r (received w w1) -> ends r ->
    o = stopped (ending r) /\ err w1 = err w ++ message r.
Proof.
  induction fuel as [|fuel IH]; intros v w o w1 H r0 Hin Hends; cbn in H.
  - inversion H; subst. unfold received in Hin.
    rewrite Nat.sub_diag in Hin. destruct Hin.
  - destruct (should_continue v).
    2:{ unfold ret in H. inversion H; subst. unfold received in Hin.
        rewrite Nat.sub_diag in Hin. destruct Hin. }
    unfold bind in H.
    destruct (loop_body token since v w) as [o' w'] eqn:Hb.
    destruct (loop_body_frame _ _ _ _ _ _ Hb) as (_ & _ & Hrep & Herr).
    destruct Hrep as [(H0 & H1 & Ho) | [r Hr]].
    + subst o'. inversion H; subst. unfold received in Hin.
      rewrite H0, H1 in Hin. destruct Hin.
    + assert (Hlast : received w w' = [r]) by (apply received_taken; exact Hr).
      destruct o' as [[v'|prs]| | | |];
        try (inversion H; subst; rewrite Hlast in Hin;
             destruct Hin as [Hin|[]]; subst r;
             destruct (ends_step token since v w r0 _ Hr Hends) as (w2 & Hw2 & He);
             rewrite Hw2 in Hb; destruct (ending r0);
             inversion Hb; subst; auto; fail).
      destruct (while_loop_frame _ _ _ _ _ _ _ H) as (_ & [taken Htaken] & _).
      assert (Hall : received w w1 = r :: taken).
      { apply received_taken. rewrite Hr, Htaken. reflexivity. }
      rewrite Hall in Hin. destruct Hin as [Hin|Hin].
      * subst r.
        destruct (ends_step token since v w r0 _ Hr Hends) as (w2 & Hw2 & He).
        rewrite Hw2 in Hb. destruct (ending r0); inversion Hb.
      * rewrite <- (received_taken w' w1 taken Htaken) in Hin.
        destruct (IH _ _ _ _ H r0 Hin Hends) as (Ho & He).
        split; auto. rewrite He. now rewrite (Herr _ eq_refl).
Qed.

Lemma ending_in_main tok days now script o w1 r :
  main tok days now (start script) = (o, w1) ->
  In r (received (start script) w1) ->
  ends r ->
  o = stopped (ending r) /\ out w1 = EmptyString /\ err w1 = message r.
Proof.
  intros H Hin Hends.
  destruct (main_inv _ _ _ _ _ _ H)
    as [(Hw & _) | [(e & Hw & _) | (token & since & o' & w' & _ & _ & Hf & Ho)]].
  - subst w1. unfold received in Hin. cbn in Hin.
    rewrite Nat.sub_diag in Hin. destruct Hin.
  - subst w1. unfold received in Hin. rewrite Nat.sub_diag in Hin. destruct Hin.
  - assert (Hrec : received (start script) w1 = received (start script) w').
    { destruct o'; destruct Ho as (_ & ->); reflexivity. }
    rewrite Hrec in Hin.
    unfold fetch_prs in Hf.
    destruct (ending_in_loop _ _ _ _ _ _ _ Hf r Hin Hends) as (Ho' & He).
    destruct (while_loop_frame _ _ _ _ _ _ _ Hf) as (Hout & _).
    subst o'. destruct (ending r); cbn [stopped] in *;
      destruct Ho as (-> & ->); auto.
Qed.

End Ending.

Lemma http_error_step token since v w r rest :
  replies w = r :: rest ->
  (exists e body, r = HttpError e body) ->
  exists w1,
    loop_body token since v w
      = (stopped (match r with
                  | HttpError _ body =>
                      if utf8_valid body then StopExit 1
                      else StopRaise UnicodeDecodeError
                  | HttpOk _ => StopExit 1
                  end), w1) /\
    err w1 = err w ++
             match r with
             | HttpError e body =>
                 if utf8_valid body then http_error_text e body
                 else "Error fetching from GitHub API: " ++ e ++ nl
             | HttpOk _ => EmptyString
             end.
Proof.
  intros Hr (e & body & ->).
  unfold loop_body, bind, fetch_graphql. rewrite Hr.
  unfold bind, lift, decode_utf8, print_err, sys_exit.
  cbn [fst snd replies sent out err].
  destruct (utf8_valid body); cbn [stopped]; eexists; (split; [reflexivity|]).
  - exact (http_error_err (err w) e body).
  - cbn [err]. now rewrite append_assoc.
Qed.

(** X1.  An HTTP error the process receives ends the run with nothing on
    standard output, whatever was fetched before.  When the body of the
    response is UTF-8, the error and the body are written to the error
    stream and the process exits with status 1; when it is not, decoding it
    for the second line raises UnicodeDecodeError, uncaught, after the first
    line. *)
Theorem http_error_fatal tok days now script o w1 e body :
  main tok days now (start script) = (o, w1) ->
  In (HttpError e body) (received (start script) w1) ->
  out w1 = EmptyString /\
  (utf8_valid body = true ->
   o = SysExit 1 /\
   err w1 = "Error fetching from GitHub API: " ++ e ++ nl ++
            "Response: " ++ body ++ nl) /\
  (utf8_valid body = false ->
   o = Uncaught UnicodeDecodeError /\
   err w1 = "Error fetching from GitHub API: " ++ e ++ nl).
Proof.
  intros H Hin.
  destruct (ending_in_main (fun r => exists e body, r = HttpError e body)
              (fun r => match r with
                        | HttpError _ body =>
                            if utf8_valid body then StopExit 1
                            else StopRaise UnicodeDecodeError
                        | HttpOk _ => StopExit 1
                        end)
              (fun r => match r with
                        | HttpError e body =>
                            if utf8_valid body then http_error_text e body
                            else "Error fetching from GitHub API: " ++ e ++ nl
                        | HttpOk _ => EmptyString
                        end)
              http_error_step _ _ _ _ _ _ _ H Hin) as (Ho & Hout & Herr).
  { now exists e, body. }
  split; [exact Hout|].
  split; intros Hv; rewrite Hv in Ho, Herr; auto.
Qed.

(** X2.  Every request goes to the GraphQL endpoint of the API with the
    token of the environment as bearer and a JSON content type. *)
Theorem request_headers tok days now script o w1 req :
  main tok days now (start script) = (o, w1) ->
  In req (sent w1) ->
  exists token,
    tok = Some token /\
    req_url req = "https://api.github.com/graphql" /\
    req_headers req = [("Authorization", "Bearer " ++ token);
                       ("Content-Type", "application/json")].
Proof.
  intros H Hin.
  destruct (main_inv _ _ _ _ _ _ H)
    as [(Hw & _) | [(e & Hw & _) | (token & since & o' & w' & Ht & _ & Hf & Ho)]].
  - subst w1. destruct Hin.
  - subst w1. destruct Hin.
  - assert (Hsent : sent w1 = sent w').
    { destruct o'; destruct Ho as (_ & ->); reflexivity. }
    rewrite Hsent in Hin. unfold fetch_prs in Hf.
    destruct (while_loop_frame _ _ _ _ _ _ _ Hf) as (_ & _ & [cs Hcs]).
    rewrite Hcs in Hin. cbn in Hin. apply in_map_iff in Hin.
    destruct Hin as (c & <- & _).
    exists token. repeat split; auto.
Qed.

(** X4.  Once the command line is parsed, standard output is written by
    the report alone: a run that does not end normally has written nothing
    to standard output, unless it ended on a line of the report standard
    output could not encode; then [fetch_prs] had returned, and standard
    output holds the header and the rows written before that line. *)
Theorem no_output_before_report tok days now script o w1 :
  main tok days now (start script) = (o, w1) ->
  o <> Done tt ->
  out w1 = EmptyString \/
  (o = Uncaught UnicodeEncodeError /\
   exists token since prs w',
     fetch_prs token since (start script) = (Done prs, w') /\
     encodable header_line = true /\
     all_encodable prs = false /\
     out w1 = header_line ++ csv_rows (written prs)).
Proof.
  intros H Hne.
  destruct (main_inv _ _ _ _ _ _ H)
    as [(Hw & _) | [(e & Hw & _) | (token & since & o' & w' & _ & _ & Hf & Ho)]].
  - left. now subst w1.
  - left. now subst w1.
  - pose proof Hf as Hf'. unfold fetch_prs in Hf'.
    destruct (while_loop_frame _ _ _ _ _ _ _ Hf') as (Hout & _).
    destruct o' as [prs| | | |];
      try (left; destruct Ho as (_ & ->); exact Hout).
    destruct Ho as (Ho & ->). cbn [out]. rewrite Hout. cbn [start out].
    destruct (encodable header_line) eqn:Hh; [|now left].
    destruct (all_encodable prs) eqn:Hall; cbn [andb] in Ho.
    + now contradiction Hne.
    + right. split; [exact Ho|]. exists token, since, prs, w'. auto.
Qed.

(** X5.  A run that ends normally has written nothing to the error
    stream. *)
Theorem success_is_silent tok days now script w1 :
  main tok days now (start script) = (Done tt, w1) ->
  err w1 = EmptyString.
Proof.
  intros H.
  destruct (main_inv _ _ _ _ _ _ H)
    as [(_ & Ho & _) | [(e & _ & Ho & _) | (token & since & o' & w' & _ & _ & Hf & Ho)]];
    try discriminate.
  destruct o' as [prs| | | |]; try (destruct Ho; discriminate).
  destruct Ho as (_ & ->). cbn [err]. unfold fetch_prs in Hf.
  now rewrite (while_loop_done_err _ _ _ _ _ _ _ Hf).
Qed.

(** X6.  Once the command line is parsed, a run that ends in [sys.exit]
    exits with status 1, and the error stream holds one diagnostic and
    nothing else: that of the missing token when no request was sent,
    otherwise that of the last reply received (the two lines of its HTTP
    error, its GraphQL errors, or the repository that is not accessible). *)
Theorem exit_diagnostics tok days now script code w1 :
  main tok days now (start script) = (SysExit code, w1) ->
  code = 1 /\
  (((tok = None \/ tok = Some EmptyString) /\
    sent w1 = [] /\
    err w1 = "Error: GITHUB_TOKEN environment variable is required" ++ nl) \/
   (exists before r,
      received (start script) w1 = (before ++ [r])%list /\
      err w1 = exit_message r)).
Proof.
  intros H.
  destruct (main_inv _ _ _ _ _ _ H)
    as [(Hw & Ho & Ht) | [(e & _ & Ho & _) | (token & since & o' & w' & _ & _ & Hf & Ho)]];
    try discriminate.
  - inversion Ho; subst. split; [reflexivity|]. left. auto.
  - destruct o' as [prs|c| | |].
    + destruct Ho as (Ho & _).
      destruct (encodable header_line && all_encodable prs); discriminate.
    + destruct Ho as (Hc & ->). inversion Hc; subst c.
      unfold fetch_prs in Hf.
      destruct (while_loop_exit _ _ _ _ _ _ _ Hf) as (Hcode & before & r & Hr & Hs).
      split; [exact Hcode|]. right. exists before, r. split; [|exact Hs].
      apply received_taken. rewrite Hr. now rewrite <- app_assoc.
    + destruct Ho; discriminate.
    + destruct Ho; discriminate.
    + destruct Ho; discriminate.
Qed.

(** X7.  A window the date arithmetic cannot hold (more than 999999999
    days, or a cutoff outside the years 1 to 9999) raises OverflowError,
    uncaught, before any request is sent. *)
Theorem window_overflow_raises tok c t days now script :
  tok = Some (String c t) ->
  Z.abs days > 999999999 \/
  now - days * us_per_day < datetime_min \/
  now - days * us_per_day > datetime_max ->
  main tok days now (start script) = (Uncaught OverflowError, start script).
Proof.
  intros -> Hrange. unfold main, bind, lift, since_date_of.
  destruct (Z.abs days >? 999999999) eqn:Hd; [reflexivity|].
  rewrite Z.gtb_ltb, Z.ltb_ge in Hd.
  destruct Hrange as [Hr|Hr]; [lia|].
  replace ((now - days * us_per_day <? datetime_min)
           || (now - days * us_per_day >? datetime_max)) with true; [reflexivity|].
  symmetry. apply orb_true_iff. rewrite Z.gtb_ltb, !Z.ltb_lt. lia.
Qed.

Lemma data_fault_step token since v w r rest :
  replies w = r :: rest ->
  (exists e, data_fault r = Some e) ->
  exists w1,
    loop_body token since v w
      = (stopped (match data_fault r with
                  | Some e => StopRaise e
                  | None => StopExit 0
                  end), w1) /\
    err w1 = err w ++ (fun _ => EmptyString) r.
Proof.
  intros Hr [e He]. cbn beta. rewrite append_nil_r.
  destruct r as [[| | | | |fields]|]; try discriminate.
  unfold loop_body, bind, fetch_graphql. rewrite Hr.
  cbn [data_fault] in *.
  destruct (lookup "errors" fields) eqn:Herr; [discriminate|].
  destruct (lookup "data" fields) as [d|] eqn:Hd; [|discriminate].
  cbn -[query]. rewrite Herr. cbn -[query]. unfold repository_missing.
  cbn -[query]. rewrite Hd. cbn -[query].
  destruct d as [| | | | |data]; cbn -[query];
    try (eexists; split; reflexivity).
  destruct (lookup "repository" data); [discriminate|].
  cbn -[query]. eexists; split; reflexivity.
Qed.

(** X8.  A response object without [errors] whose [data] is not usable
    ends the run with an uncaught exception: KeyError when [data] is an
    object without the repository key, TypeError when [data] is null or
    anything else that is not an object.  Nothing is printed on either
    stream by the script. *)
Theorem unusable_data_raises tok days now script o w1 r e :
  main tok days now (start script) = (o, w1) ->
  In r (received (start script) w1) ->
  data_fault r = Some e ->
  o = Uncaught e /\
  exit_status o = Some 1 /\
  out w1 = EmptyString /\
  err w1 = EmptyString.
Proof.
  intros H Hin He.
  destruct (ending_in_main (fun r => exists e, data_fault r = Some e)
              (fun r => match data_fault r with
                        | Some e => StopRaise e
                        | None => StopExit 0
                        end)
              (fun _ => EmptyString)
              data_fault_step _ _ _ _ _ _ _ H Hin) as (Ho & Hout & Herr).
  { now exists e. }
  rewrite He in Ho. subst o. repeat split; auto.
Qed.

(** *** The walk, page by page *)

Lemma after_front_vars front :
  forall v,
    should_continue v = true ->
    should_continue (after_front front v) = true /\
    all_prs (after_front front v) =
      (all_prs v ++ map row_of (filter merged_or_open (flat_map nodes front)))%list /\
    (front_cursors (cursor v) front ++ [cursor (after_front front v)])%list =
      cursor v :: map (fun q => opt_str (endCursor q)) front.
Proof.
  induction front as [|q front IH]; intros v Hsc; cbn [after_front flat_map map front_cursors].
  - repeat split; auto. now rewrite app_nil_r.
  - edestruct IH as (H1 & H2 & H3); [|rewrite H1, H2; cbn [all_prs cursor] in *].
    + reflexivity.
    + repeat split.
      * now rewrite filter_app, map_app, app_assoc.
      * cbn [app]. f_equal. exact H3.
Qed.

(** Pages of newer nodes that announce a next page are read whole, one
    request each. *)
Lemma walk_front token c front :
  forall v w rest fuel,
    should_continue v = true ->
    replies w = (map page_reply front ++ rest)%list ->
    front_ok c front ->
    while_loop (length front + fuel) token (utc c) v w =
    while_loop fuel token (utc c) (after_front front v)
      {| replies := rest;
         sent := sent w ++ map (request_of token (utc c)) (front_cursors (cursor v) front);
         out := out w; err := err w |}.
Proof.
  induction front as [|q front IH]; intros v w rest fuel Hsc Hr Hfront.
  - cbn in *. rewrite app_nil_r. destruct w; cbn in *. now subst.
  - cbn [map app] in Hr. inversion Hfront as [|? ? [Hq Hqn] Hfront']; subst.
    assert (Hfor : for_nodes (utc c) (map node_json (nodes q)) (all_prs v)
                     (should_continue v)
                   = Val ((all_prs v ++ map row_of (filter merged_or_open (nodes q)))%list,
                          true)).
    { rewrite <- (app_nil_r (map node_json (nodes q))).
      rewrite for_nodes_prefix by assumption. cbn. now rewrite Hsc. }
    cbn [length Nat.add while_loop]. rewrite Hsc. unfold bind.
    rewrite (loop_body_page token c v w q _ _ _ Hr Hfor).
    rewrite Hq. cbn [andb].
    rewrite IH with (rest := rest); [|reflexivity|reflexivity|assumption].
    cbn [after_front front_cursors map sent out err cursor].
    now rewrite <- app_assoc.
Qed.

Lemma loop_body_page_raise token c v w p rest e :
  replies w = page_reply p :: rest ->
  for_nodes (utc c) (map node_json (nodes p)) (all_prs v) (should_continue v)
    = Raise e ->
  loop_body token (utc c) v w =
  (Uncaught e,
   {| replies := rest;
      sent := sent w ++ [request_of token (utc c) (cursor v)];
      out := out w; err := err w |}).
Proof.
  intros Hr Hf. unfold loop_body, bind, fetch_graphql. rewrite Hr.
  unfold page_reply, page_json. cbn -[query for_nodes].
  rewrite Hf. reflexivity.
Qed.

(** What reading the timestamp of a node raises, if anything: ValueError
    when it does not parse, TypeError when it parses without an offset and
    cannot be compared with the cutoff. *)
Lemma for_nodes_unreadable c n tail acc sc :
  updated_instant n = None ->
  for_nodes (utc c) (node_json n :: tail) acc sc =
  Raise (match fromisoformat (replace_Z (updatedAt n)) with
         | None => ValueError
         | Some _ => TypeError
         end).
Proof.
  unfold updated_instant. intros H. cbn. unfold parse_datetime.
  destruct (fromisoformat (replace_Z (updatedAt n))) as [d|]; [|reflexivity].
  cbn. unfold dt_lt. destruct (utcoffset d); [discriminate|reflexivity].
Qed.

(** X9.  The cursor is threaded through the pages: the first request has
    a null cursor, and after each page of newer nodes that announces a next
    page, the next request carries the end cursor of that page. *)
Theorem cursor_chain token c front script :
  front_ok c front ->
  exists more,
    sent (snd (fetch_prs token (utc c) (start (map page_reply front ++ script)))) =
    (map (request_of token (utc c))
         (JNull :: map (fun q => opt_str (endCursor q)) front) ++ more)%list.
Proof.
  intros Hfront. unfold fetch_prs.
  cbn [start replies]. rewrite length_app, length_map.
  replace (S (length front + length script)) with (length front + S (length script))%nat
    by lia.
  rewrite (walk_front token c front entry
             (start (map page_reply front ++ script)) script _
             eq_refl eq_refl Hfront).
  destruct (after_front_vars front entry eq_refl) as (Hsc & _ & Hcs).
  cbn [entry cursor] in Hcs. cbn [sent out err start app entry cursor].
  cbn [while_loop]. rewrite Hsc. unfold bind.
  match goal with |- context [loop_body ?t ?s ?v ?w] =>
    destruct (loop_body t s v w) as [o' w'] eqn:Hb end.
  destruct (loop_body_frame _ _ _ _ _ _ Hb) as (_ & Hsent & _ & _).
  cbn [sent] in Hsent.
  assert (Hw' : sent w' = map (request_of token (utc c))
                            (JNull :: map (fun q => opt_str (endCursor q)) front)).
  { rewrite Hsent, <- Hcs, map_app. reflexivity. }
  destruct o' as [[v'|prs]| | | |]; cbn [snd];
    try (exists []; rewrite app_nil_r; exact Hw').
  destruct (while_loop _ _ _ v' w') as [o w1] eqn:Hrun.
  destruct (while_loop_frame _ _ _ _ _ _ _ Hrun) as (_ & _ & [cs Hcs']).
  exists (map (request_of token (utc c)) cs). cbn [snd]. now rewrite Hcs', Hw'.
Qed.

(** X10.  A page that announces no next page ends the walk, even with
    every node inside the window: its rows are added, the loop returns, and
    the replies after it stay on the network. *)
Theorem stops_at_last_page token c front p script :
  front_ok c front ->
  hasNextPage p = false ->
  Forall timed (nodes p) ->
  exists w1,
    fetch_prs token (utc c)
      (start (map page_reply front ++ page_reply p :: script)) =
    (Done (map row_of (filter merged_or_open
                         (flat_map nodes front ++ fresh c (nodes p)))), w1) /\
    replies w1 = script /\
    length (sent w1) = S (length front).
Proof.
  intros Hfront Hp Htimed. unfold fetch_prs.
  cbn [start replies]. rewrite length_app, length_map. cbn [length].
  replace (S (length front + S (length script)))
    with (length front + S (S (length script)))%nat by lia.
  rewrite (walk_front token c front entry
             (start (map page_reply front ++ page_reply p :: script))
             (page_reply p :: script) _ eq_refl eq_refl Hfront).
  destruct (after_front_vars front entry eq_refl) as (Hsc & Hprs & _).
  cbn [while_loop]. rewrite Hsc. unfold bind.
  erewrite loop_body_page;
    [|reflexivity|rewrite for_nodes_page by assumption; reflexivity].
  rewrite Hp. cbn [andb]. unfold ret. eexists. split; [|split].
  - rewrite Hprs. cbn [entry all_prs app].
    now rewrite filter_app, map_app.
  - reflexivity.
  - cbn [sent start app]. rewrite length_app, length_map. cbn [length].
    assert (Hlen : forall l c0, length (front_cursors c0 l) = length l).
    { clear. induction l as [|q l IH]; intros c0; cbn; [reflexivity|].
      now rewrite IH. }
    rewrite Hlen. lia.
Qed.

(** X11.  A timestamp that cannot be read ends the run when the walk
    reaches its node: ValueError when [updatedAt] does not parse, TypeError
    when it parses without a UTC offset and so cannot be compared with the
    cutoff.  The rows gathered so far are lost with it. *)
Theorem unreadable_timestamp_raises token c front p pre n post script :
  front_ok c front ->
  nodes p = (pre ++ n :: post)%list ->
  Forall (fun m => in_window c m = true) pre ->
  updated_instant n = None ->
  fst (fetch_prs token (utc c)
         (start (map page_reply front ++ page_reply p :: script))) =
  Uncaught (match fromisoformat (replace_Z (updatedAt n)) with
            | None => ValueError
            | Some _ => TypeError
            end).
Proof.
  intros Hfront Hp Hpre Hn. unfold fetch_prs.
  cbn [start replies]. rewrite length_app, length_map. cbn [length].
  replace (S (length front + S (length script)))
    with (length front + S (S (length script)))%nat by lia.
  rewrite (walk_front token c front entry
             (start (map page_reply front ++ page_reply p :: script))
             (page_reply p :: script) _ eq_refl eq_refl Hfront).
  destruct (after_front_vars front entry eq_refl) as (Hsc & _ & _).
  cbn [while_loop]. rewrite Hsc. unfold bind.
  erewrite loop_body_page_raise; [reflexivity|reflexivity|].
  rewrite Hp, map_app. cbn [map].
  rewrite for_nodes_prefix by assumption.
  now apply for_nodes_unreadable.
Qed.

(** X12.  On a listing whose timestamps can be read, [fetch_prs] is this
    walk: it fetches pages while a page announces a next one and has no
    node older than the cutoff, and returns, in order, the rows of the
    merged or open nodes that come before the first old node of their
    page; the pages beyond are not requested. *)
Theorem fetch_prs_walk token c pages :
  Forall (fun p => Forall timed (nodes p)) pages ->
  listing_ends pages ->
  exists w1,
    fetch_prs token (utc c) (start (map page_reply pages)) =
    (Done (map row_of (filter merged_or_open
             (flat_map (fun p => fresh c (nodes p))
                       (firstn (pages_read c pages) pages)))), w1) /\
    length (sent w1) = pages_read c pages /\
    (1 <= pages_read c pages <= length pages)%nat /\
    replies w1 = map page_reply (skipn (pages_read c pages) pages).
Proof.
  intros Htimed Hends. unfold fetch_prs. eexists. split; [|split; [|split]].
  - apply (walk_exact token c pages entry (start (map page_reply pages))
             eq_refl eq_refl Hends Htimed).
    cbn. rewrite length_map. lia.
  - cbn [sent start app]. rewrite length_map.
    assert (Hlen : forall l c0, length (front_cursors c0 l) = length l).
    { clear. induction l as [|q l IH]; intros c0; cbn; [reflexivity|].
      now rewrite IH. }
    rewrite Hlen, length_firstn.
    pose proof (pages_read_bounds c pages (listing_ends_cons _ Hends)). lia.
  - apply pages_read_bounds. now apply listing_ends_cons.
  - reflexivity.
Qed.

(** X13.  The cutoff itself is inside the window: on a listing sorted
    newest first, a fetched node that is merged or open and was updated at
    the very instant of the cutoff has its row in the result. *)
Theorem cutoff_is_inside token c pages n :
  Forall (fun p => Forall timed (nodes p) /\ descending (nodes p)) pages ->
  listing_ends pages ->
  In n (fetched_nodes (pages_read c pages) pages) ->
  updated_instant n = Some c ->
  merged_or_open n = true ->
  exists rows w1,
    fetch_prs token (utc c) (start (map page_reply pages)) = (Done rows, w1) /\
    In (row_of n) rows.
Proof.
  intros Hpages Hends Hin Hc Hm.
  assert (Htimed : Forall (fun p => Forall timed (nodes p)) pages).
  { eapply Forall_impl; [|exact Hpages]. now intros p [Ht _]. }
  eexists. eexists. split.
  - unfold fetch_prs.
    apply (walk_exact token c pages entry (start (map page_reply pages))
             eq_refl eq_refl Hends Htimed).
    cbn. rewrite length_map. lia.
  - cbn [entry all_prs app]. apply in_map.
    rewrite fresh_pages_retained.
    + apply filter_In. split; [exact Hin|].
      unfold retained, in_window. rewrite Hc, Hm, Z.leb_refl. reflexivity.
    + rewrite <- (firstn_skipn (pages_read c pages) pages) in Hpages.
      now apply Forall_app in Hpages.
Qed.

(** X14.  The report, end to end, once the command line is parsed.  With
    a token of printable ASCII (one [urlopen] accepts as a header value), a
    window the date arithmetic can hold, a listing sorted newest first, and
    a standard output that can encode the header and the line of every
    node, [main] ends normally: the cutoff is the clock reading less the
    days of the window, standard output is the header line followed by one
    line for each fetched node that is inside the window and merged or
    open, in the order of the listing, and the error stream is empty. *)
Theorem main_report ch t days now pages :
  plain_ascii (String ch t) = true ->
  Z.abs days <= 999999999 ->
  datetime_min <= now - days * us_per_day <= datetime_max ->
  Forall (fun p => Forall timed (nodes p) /\ descending (nodes p)) pages ->
  listing_ends pages ->
  encodable header_line = true ->
  Forall (fun p => Forall (fun n => encodable (csv_line (row_values (row_of n))) = true)
                          (nodes p)) pages ->
  let cutoff := now - days * us_per_day in
  exists w1,
    main (Some (String ch t)) days now (start (map page_reply pages)) = (Done tt, w1) /\
    out w1 = ("title,link,merged,updated" ++ nl) ++
             csv_rows (map row_of
                         (filter (retained cutoff)
                                 (fetched_nodes (pages_read cutoff pages) pages))) /\
    err w1 = EmptyString /\
    length (sent w1) = pages_read cutoff pages.
Proof.
  intros _ Hdays Hrange Hpages Hends Hheader Hlines cutoff.
  assert (Htimed : Forall (fun p => Forall timed (nodes p)) pages).
  { eapply Forall_impl; [|exact Hpages]. now intros p [Ht _]. }
  assert (Hsince : since_date_of now days = Val (utc cutoff)).
  { unfold since_date_of.
    replace (Z.abs days >? 999999999) with false
      by (symmetry; rewrite Z.gtb_ltb; apply Z.ltb_ge; lia).
    replace ((now - days * us_per_day <? datetime_min)
             || (now - days * us_per_day >? datetime_max)) with false; [reflexivity|].
    symmetry. apply orb_false_iff. rewrite Z.gtb_ltb, !Z.ltb_ge. lia. }
  set (kept := filter (retained cutoff)
                 (fetched_nodes (pages_read cutoff pages) pages)).
  assert (Hkept : filter merged_or_open
                    (flat_map (fun p => fresh cutoff (nodes p))
                              (firstn (pages_read cutoff pages) pages)) = kept).
  { unfold kept, fetched_nodes. apply fresh_pages_retained.
    rewrite <- (firstn_skipn (pages_read cutoff pages) pages) in Hpages.
    now apply Forall_app in Hpages. }
  assert (Hall : all_encodable (map row_of kept) = true).
  { unfold all_encodable. apply forallb_forall. intros r Hr.
    apply in_map_iff in Hr. destruct Hr as (n & <- & Hn).
    unfold kept, fetched_nodes in Hn. apply filter_In in Hn. destruct Hn as [Hn _].
    apply in_flat_map in Hn. destruct Hn as (p & Hp & Hnp).
    assert (Hp' : In p pages).
    { rewrite <- (firstn_skipn (pages_read cutoff pages) pages).
      apply in_or_app. now left. }
    clear Hp. rename Hp' into Hp.
    rewrite Forall_forall in Hlines. specialize (Hlines p Hp).
    rewrite Forall_forall in Hlines. now apply Hlines. }
  unfold main, bind, lift. rewrite Hsince. unfold fetch_prs.
  rewrite (walk_exact (String ch t) cutoff pages entry (start (map page_reply pages))
             eq_refl eq_refl Hends Htimed)
    by (cbn; rewrite length_map; lia).
  cbn [entry all_prs app]. rewrite Hkept.
  unfold writeheader, write_out. rewrite Hheader. rewrite writerows_spec.
  rewrite Hall, (written_all _ Hall).
  eexists. split; [reflexivity|]. cbn [out err sent start].
  split; [reflexivity|]. split; [reflexivity|]. cbn [app].
  rewrite length_map.
  assert (Hlen : forall l c0, length (front_cursors c0 l) = length l).
  { clear. induction l as [|q l IH]; intros c0; cbn; [reflexivity|].
    now rewrite IH. }
  rewrite Hlen, length_firstn.
  pose proof (pages_read_bounds cutoff pages (listing_ends_cons _ Hends)). lia.
Qed.

(** X15.  The rewriting of the timestamp before it is parsed: a text
    without the letter Z is left as it is, and one such text followed by Z,
    the form the API sends, has the Z replaced by the offset of UTC. *)
Theorem replace_Z_suffix s :
  no_Z s = true ->
  replace_Z s = s /\ replace_Z (s ++ "Z") = s ++ "+00:00".
Proof.
  induction s as [|ch s IH]; intros H.
  - split; reflexivity.
  - cbn in H. apply andb_prop in H. destruct H as [Hch Hs].
    destruct (IH Hs) as [IH1 IH2]. apply negb_true_iff in Hch.
    cbn [replace_Z append]. rewrite Hch. now rewrite IH1, IH2.
Qed.

(** X16.  The cells of a row are those of its node: the rows returned
    pair, in order, with the merged or open nodes read before the first old
    node of their page, and each row holds the title, the url and the
    [updatedAt] text of its node as the API sent them, the Z of the
    timestamp included. *)
Theorem row_cells token c pages :
  Forall (fun p => Forall timed (nodes p)) pages ->
  listing_ends pages ->
  exists rows w1,
    fetch_prs token (utc c) (start (map page_reply pages)) = (Done rows, w1) /\
    Forall2 (fun n r =>
               r_title r = JStr (title n) /\
               r_link r = JStr (url n) /\
               r_updated r = JStr (updatedAt n) /\
               row_values r = [title n; url n;
                               if merged n then "true" else "false";
                               updatedAt n])
            (filter merged_or_open
               (flat_map (fun p => fresh c (nodes p))
                         (firstn (pages_read c pages) pages)))
            rows.
Proof.
  intros Htimed Hends. eexists. eexists. split.
  - unfold fetch_prs.
    apply (walk_exact token c pages entry (start (map page_reply pages))
             eq_refl eq_refl Hends Htimed).
    cbn. rewrite length_map. lia.
  - cbn [entry all_prs app].
    induction (filter merged_or_open
                 (flat_map (fun p => fresh c (nodes p))
                           (firstn (pages_read c pages) pages)))
      as [|n l IH]; cbn [map]; constructor; auto.
Qed.

End Script.

(** ** The claims on the example data

    The library functions are instantiated with those of [Instances]. *)

Local Notation iso := Instances.utc_fromisoformat.
Local Notation run_main :=
  (main Instances.utc_fromisoformat Instances.utc_isoformat Instances.str
        Instances.stdout_utf8 Instances.csv_quotes_cr).
Local Notation run_fetch_prs :=
  (fetch_prs Instances.utc_fromisoformat Instances.utc_isoformat Instances.str).

Ltac is_timed := eexists; vm_compute; reflexivity.
Ltac is_descending :=
  unfold descending;
  repeat (first [apply Sorted_nil | apply Sorted_cons | apply HdRel_nil | apply HdRel_cons]);
  vm_compute; discriminate.

(** C1 fails on a page that is not sorted: A is fetched, was updated after
    the cutoff and is merged, and gets no row, the loop having stopped at the
    older C before it. *)
Lemma window_filter_unsorted_page :
  exists w1,
    run_fetch_prs "token" (utc ex_cutoff) (start [page_reply page_CA]) = (Done [], w1) /\
    In pr_A (fetched_nodes (length (sent w1)) [page_CA]) /\
    in_window iso ex_cutoff pr_A = true /\
    merged pr_A = true /\
    ~ window_filter iso ex_cutoff (fetched_nodes (length (sent w1)) [page_CA]) [].
Proof.
  eexists. split; [vm_compute; reflexivity|].
  cbn [sent length app]. split; [right; left; reflexivity|].
  split; [vm_compute; reflexivity|]. split; [reflexivity|].
  unfold window_filter. vm_compute. discriminate.
Qed.

Lemma window_filter_descending_witness :
  exists rows w1,
    run_fetch_prs "token" (utc ex_cutoff) (start (map page_reply [page_DA; page_BC]))
      = (Done rows, w1) /\
    window_filter iso ex_cutoff
      (fetched_nodes (length (sent w1)) [page_DA; page_BC]) rows.
Proof.
  apply (window_filter_descending iso Instances.utc_isoformat Instances.str
           "token" ex_cutoff [page_DA; page_BC]).
  - repeat (apply Forall_cons || apply Forall_nil); split;
      first [ repeat (apply Forall_cons || apply Forall_nil); is_timed
            | is_descending ].
  - exists [page_DA], page_BC. split; reflexivity.
Defined.

Lemma stops_at_first_old_witness :
  exists w1,
    run_fetch_prs "token" (utc ex_cutoff)
      (start (map page_reply [page_DA] ++ page_reply page_BC_more :: [errors_reply])) =
    (Done (map row_of (filter merged_or_open (flat_map nodes [page_DA] ++ [pr_B]))), w1) /\
    replies w1 = [errors_reply] /\
    length (sent w1) = S (length [page_DA]) /\
    received (start (map page_reply [page_DA] ++ page_reply page_BC_more :: [errors_reply])) w1
      = (map page_reply [page_DA] ++ [page_reply page_BC_more])%list.
Proof.
  apply (stops_at_first_old iso Instances.utc_isoformat Instances.str
           "token" ex_cutoff [page_DA] page_BC_more [pr_B] pr_C [] [errors_reply]).
  - repeat (apply Forall_cons || apply Forall_nil). split; [reflexivity|].
    repeat (apply Forall_cons || apply Forall_nil); vm_compute; reflexivity.
  - reflexivity.
  - repeat (apply Forall_cons || apply Forall_nil); vm_compute; reflexivity.
  - is_timed.
  - vm_compute; reflexivity.
Defined.

Lemma errors_array_fatal_witness :
  fst (run_main (Some "token") ex_days ex_now (start [errors_reply])) = SysExit 1 /\
  exit_status (fst (run_main (Some "token") ex_days ex_now (start [errors_reply]))) = Some 1 /\
  out (snd (run_main (Some "token") ex_days ex_now (start [errors_reply]))) = EmptyString /\
  err (snd (run_main (Some "token") ex_days ex_now (start [errors_reply])))
    = "GraphQL errors: " ++
      Instances.str (JArr [JObj [("message", JStr "Bad credentials")]]) ++ nl.
Proof.
  apply (errors_array_fatal iso Instances.utc_isoformat Instances.str
           Instances.stdout_utf8 Instances.csv_quotes_cr
           (Some "token") ex_days ex_now [errors_reply] _ _
           [("errors", JArr [JObj [("message", JStr "Bad credentials")]])]
           (JObj [("message", JStr "Bad credentials")]) []).
  - vm_compute; reflexivity.
  - vm_compute. left; reflexivity.
  - reflexivity.
Defined.

Lemma errors_key_fatal_witness :
  fst (run_main (Some "token") ex_days ex_now (start [empty_errors_reply])) = SysExit 1 /\
  exit_status (fst (run_main (Some "token") ex_days ex_now (start [empty_errors_reply])))
    = Some 1 /\
  out (snd (run_main (Some "token") ex_days ex_now (start [empty_errors_reply])))
    = EmptyString /\
  err (snd (run_main (Some "token") ex_days ex_now (start [empty_errors_reply])))
    = "GraphQL errors: " ++ Instances.str (JArr []) ++ nl.
Proof.
  apply (errors_key_fatal iso Instances.utc_isoformat Instances.str
           Instances.stdout_utf8 Instances.csv_quotes_cr
           (Some "token") ex_days ex_now [empty_errors_reply] _ _
           [("data", JNull); ("errors", JArr [])] (JArr [])).
  - vm_compute; reflexivity.
  - vm_compute. left; reflexivity.
  - reflexivity.
Defined.

(** C7 fails twice.  A [data] object with no repository key raises an
    uncaught KeyError, and a response without [data] that carries an
    [errors] key is reported as GraphQL errors: in neither run is the
    repository reported as not accessible. *)
Lemma repository_data_missing_unreported :
  (run_main (Some "token") ex_days ex_now (start [absent_repository_reply])
     = (Uncaught (KeyError "repository"),
        snd (run_main (Some "token") ex_days ex_now (start [absent_repository_reply]))) /\
   received (start [absent_repository_reply])
     (snd (run_main (Some "token") ex_days ex_now (start [absent_repository_reply])))
     = [absent_repository_reply] /\
   repository_data_missing (JObj [("data", JObj [])]) /\
   ~ reports_not_accessible
       (run_main (Some "token") ex_days ex_now (start [absent_repository_reply]))) /\
  (received (start [errors_without_data_reply])
     (snd (run_main (Some "token") ex_days ex_now (start [errors_without_data_reply])))
     = [errors_without_data_reply] /\
   repository_data_missing
     (JObj [("errors", JArr [JObj [("message", JStr "Bad credentials")]])]) /\
   ~ reports_not_accessible
       (run_main (Some "token") ex_days ex_now (start [errors_without_data_reply]))).
Proof.
  split; [split; [|split; [|split]] | split; [|split]].
  - vm_compute; reflexivity.
  - vm_compute; reflexivity.
  - right. exists []. split; [reflexivity|left; reflexivity].
  - intros [H _]. vm_compute in H. discriminate.
  - vm_compute; reflexivity.
  - left. reflexivity.
  - intros [H _]. vm_compute in H. discriminate.
Qed.

Lemma repository_not_accessible_witness :
  fst (run_main (Some "token") ex_days ex_now (start [null_repository_reply])) = SysExit 1 /\
  out (snd (run_main (Some "token") ex_days ex_now (start [null_repository_reply])))
    = EmptyString /\
  reports_not_accessible
    (fst (run_main (Some "token") ex_days ex_now (start [null_repository_reply])),
     snd (run_main (Some "token") ex_days ex_now (start [null_repository_reply]))).
Proof.
  apply (repository_not_accessible iso Instances.utc_isoformat Instances.str
           Instances.stdout_utf8 Instances.csv_quotes_cr
           (Some "token") ex_days ex_now [null_repository_reply] _ _
           (JObj [("data", JObj [("repository", JNull)])])).
  - vm_compute; reflexivity.
  - vm_compute. left; reflexivity.
  - split; [reflexivity|]. right. exists [("repository", JNull)], JNull.
    repeat split.
Defined.

(** C8 fails: the variables of a request have a fourth key, since. *)
Lemma since_variable_sent :
  exists req,
    In req (sent (snd (run_main (Some "token") ex_days ex_now
                         (start [page_reply page_BC])))) /\
    In "since" (variable_names req) /\
    ~ (forall k, In k (variable_names req) <->
                 k = "owner" \/ k = "repo" \/ k = "cursor").
Proof.
  eexists. split; [vm_compute; left; reflexivity|].
  split; [vm_compute; intuition|].
  intros H. destruct (proj1 (H "since")) as [E|[E|E]]; try discriminate E.
  vm_compute. intuition.
Qed.

Lemma request_body_shape_witness :
  exists since c,
    since_date_of ex_now ex_days = Val since /\
    req_body (request_of Instances.utc_isoformat "token" (utc ex_cutoff) JNull) =
      JObj [("query", JStr query);
            ("variables", JObj [("owner", JStr "NixOS");
                                ("repo", JStr "nixpkgs");
                                ("cursor", c);
                                ("since", JStr (Instances.utc_isoformat since))])] /\
    variable_names (request_of Instances.utc_isoformat "token" (utc ex_cutoff) JNull)
      = ["owner"; "repo"; "cursor"; "since"].
Proof.
  apply (request_body_shape iso Instances.utc_isoformat Instances.str
           Instances.stdout_utf8 Instances.csv_quotes_cr
           (Some "token") ex_days ex_now [page_reply page_BC]
           (fst (run_main (Some "token") ex_days ex_now (start [page_reply page_BC])))
           (snd (run_main (Some "token") ex_days ex_now (start [page_reply page_BC])))).
  - vm_compute; reflexivity.
  - vm_compute. left; reflexivity.
Defined.

Lemma missing_token_fatal_witness :
  fst (run_main None ex_days ex_now (start [page_reply page_BC])) = SysExit 1 /\
  exit_status (fst (run_main None ex_days ex_now (start [page_reply page_BC]))) = Some 1 /\
  sent (snd (run_main None ex_days ex_now (start [page_reply page_BC]))) = [] /\
  replies (snd (run_main None ex_days ex_now (start [page_reply page_BC])))
    = [page_reply page_BC] /\
  out (snd (run_main None ex_days ex_now (start [page_reply page_BC]))) = EmptyString /\
  err (snd (run_main None ex_days ex_now (start [page_reply page_BC])))
    = "Error: GITHUB_TOKEN environment variable is required" ++ nl.
Proof.
  apply (missing_token_fatal iso Instances.utc_isoformat Instances.str
           Instances.stdout_utf8 Instances.csv_quotes_cr
           None ex_days ex_now [page_reply page_BC]).
  - left; reflexivity.
  - reflexivity.
Defined.

Lemma header_always_witness :
  exists token since prs w',
    Some "token" = Some token /\
    since_date_of ex_now ex_days = Val since /\
    run_fetch_prs token since (start [page_reply page_BC]) = (Done prs, w') /\
    out (snd (run_main (Some "token") ex_days ex_now (start [page_reply page_BC])))
      = ("title,link,merged,updated" ++ nl) ++
        csv_rows Instances.str Instances.csv_quotes_cr prs /\
    (prs = [] ->
     out (snd (run_main (Some "token") ex_days ex_now (start [page_reply page_BC])))
       = "title,link,merged,updated" ++ nl).
Proof.
  apply (header_always iso Instances.utc_isoformat Instances.str
           Instances.stdout_utf8 Instances.csv_quotes_cr
           (Some "token") ex_days ex_now [page_reply page_BC]).
  vm_compute; reflexivity.
Defined.

Lemma merged_cell_text_witness :
  exists rows w1,
    run_fetch_prs "token" (utc ex_cutoff) (start (map page_reply [page_DA; page_BC]))
      = (Done rows, w1) /\
    Forall2 (fun n r =>
               r_title r = JStr (title n) /\
               r_link r = JStr (url n) /\
               r_updated r = JStr (updatedAt n) /\
               r_merged r = (if merged n then "true" else "false") /\
               nth_error (map (csv_field Instances.csv_quotes_cr)
                              (row_values Instances.str r)) 2
                 = Some (if merged n then "true" else "false"))
            (filter merged_or_open
               (flat_map (fun p => fresh iso ex_cutoff (nodes p))
                         (firstn (pages_read iso ex_cutoff [page_DA; page_BC])
                                 [page_DA; page_BC])))
            rows.
Proof.
  apply (merged_cell_text iso Instances.utc_isoformat Instances.str
           Instances.csv_quotes_cr
           "token" ex_cutoff [page_DA; page_BC]).
  - repeat (apply Forall_cons || apply Forall_nil); is_timed.
  - exists [page_DA], page_BC. split; reflexivity.
Defined.

Lemma pagination_terminates_witness :
  exists rows w1,
    (forall fuel, (length [page_DA; page_BC] <= fuel)%nat ->
       while_loop iso Instances.utc_isoformat Instances.str fuel "token"
         (utc ex_cutoff) entry (start (map page_reply [page_DA; page_BC]))
         = (Done rows, w1)) /\
    run_fetch_prs "token" (utc ex_cutoff) (start (map page_reply [page_DA; page_BC]))
      = (Done rows, w1) /\
    (length (sent w1) <= length [page_DA; page_BC])%nat /\
    replies w1 = map page_reply (skipn (length (sent w1)) [page_DA; page_BC]).
Proof.
  apply (pagination_terminates iso Instances.utc_isoformat Instances.str
           "token" ex_cutoff [page_DA; page_BC]).
  - repeat (apply Forall_cons || apply Forall_nil); is_timed.
  - exists [page_DA], page_BC. split; reflexivity.
Defined.

(** ** The further properties on the example data *)

Lemma http_error_fatal_witness :
  out (snd (run_main (Some "token") ex_days ex_now
              (start [page_reply page_DA; http_error_reply]))) = EmptyString /\
  (utf8_valid "Bad credentials" = true ->
   fst (run_main (Some "token") ex_days ex_now
          (start [page_reply page_DA; http_error_reply])) = SysExit 1 /\
   err (snd (run_main (Some "token") ex_days ex_now
               (start [page_reply page_DA; http_error_reply])))
     = "Error fetching from GitHub API: " ++ "HTTP Error 401: Unauthorized" ++ nl ++
       "Response: " ++ "Bad credentials" ++ nl) /\
  (utf8_valid "Bad credentials" = false ->
   fst (run_main (Some "token") ex_days ex_now
          (start [page_reply page_DA; http_error_reply])) = Uncaught UnicodeDecodeError /\
   err (snd (run_main (Some "token") ex_days ex_now
               (start [page_reply page_DA; http_error_reply])))
     = "Error fetching from GitHub API: " ++ "HTTP Error 401: Unauthorized" ++ nl).
Proof.
  apply (http_error_fatal iso Instances.utc_isoformat Instances.str
           Instances.stdout_utf8 Instances.csv_quotes_cr
           (Some "token") ex_days ex_now [page_reply page_DA; http_error_reply]).
  - vm_compute; reflexivity.
  - vm_compute. right; left; reflexivity.
Defined.

Lemma request_headers_witness :
  exists token,
    Some "token" = Some token /\
    req_url (request_of Instances.utc_isoformat "token" (utc ex_cutoff) JNull)
      = "https://api.github.com/graphql" /\
    req_headers (request_of Instances.utc_isoformat "token" (utc ex_cutoff) JNull)
      = [("Authorization", "Bearer " ++ token); ("Content-Type", "application/json")].
Proof.
  apply (request_headers iso Instances.utc_isoformat Instances.str
           Instances.stdout_utf8 Instances.csv_quotes_cr
           (Some "token") ex_days ex_now [page_reply page_BC]
           (fst (run_main (Some "token") ex_days ex_now (start [page_reply page_BC])))
           (snd (run_main (Some "token") ex_days ex_now (start [page_reply page_BC])))).
  - vm_compute; reflexivity.
  - vm_compute. left; reflexivity.
Defined.

Lemma no_output_before_report_witness :
  out (snd (run_main (Some "token") ex_days ex_now
              (start [page_reply page_DA; errors_reply]))) = EmptyString \/
  (fst (run_main (Some "token") ex_days ex_now
          (start [page_reply page_DA; errors_reply])) = Uncaught UnicodeEncodeError /\
   exists token since prs w',
     run_fetch_prs token since (start [page_reply page_DA; errors_reply])
       = (Done prs, w') /\
     Instances.stdout_utf8 (header_line Instances.csv_quotes_cr) = true /\
     all_encodable Instances.str Instances.stdout_utf8 Instances.csv_quotes_cr prs
       = false /\
     out (snd (run_main (Some "token") ex_days ex_now
                 (start [page_reply page_DA; errors_reply])))
       = header_line Instances.csv_quotes_cr ++
         csv_rows Instances.str Instances.csv_quotes_cr
           (written Instances.str Instances.stdout_utf8 Instances.csv_quotes_cr prs)).
Proof.
  apply (no_output_before_report iso Instances.utc_isoformat Instances.str
           Instances.stdout_utf8 Instances.csv_quotes_cr
           (Some "token") ex_days ex_now [page_reply page_DA; errors_reply]).
  - vm_compute; reflexivity.
  - vm_compute. discriminate.
Defined.

Lemma success_is_silent_witness :
  err (snd (run_main (Some "token") ex_days ex_now
              (start [page_reply page_DA; page_reply page_BC]))) = EmptyString.
Proof.
  apply (success_is_silent iso Instances.utc_isoformat Instances.str
           Instances.stdout_utf8 Instances.csv_quotes_cr
           (Some "token") ex_days ex_now [page_reply page_DA; page_reply page_BC]).
  vm_compute; reflexivity.
Defined.

Lemma exit_diagnostics_witness :
  1 = 1 /\
  (((Some "token" = None \/ Some "token" = Some EmptyString) /\
    sent (snd (run_main (Some "token") ex_days ex_now
                 (start [page_reply page_DA; null_repository_reply]))) = [] /\
    err (snd (run_main (Some "token") ex_days ex_now
                (start [page_reply page_DA; null_repository_reply])))
      = "Error: GITHUB_TOKEN environment variable is required" ++ nl) \/
   (exists before r,
      received (start [page_reply page_DA; null_repository_reply])
        (snd (run_main (Some "token") ex_days ex_now
                (start [page_reply page_DA; null_repository_reply])))
        = (before ++ [r])%list /\
      err (snd (run_main (Some "token") ex_days ex_now
                  (start [page_reply page_DA; null_repository_reply])))
        = exit_message Instances.str r)).
Proof.
  apply (exit_diagnostics iso Instances.utc_isoformat Instances.str
           Instances.stdout_utf8 Instances.csv_quotes_cr
           (Some "token") ex_days ex_now [page_reply page_DA; null_repository_reply]).
  vm_compute; reflexivity.
Defined.

Lemma window_overflow_raises_witness :
  run_main (Some "token") 1000000000 ex_now (start [page_reply page_BC])
  = (Uncaught OverflowError, start [page_reply page_BC]).
Proof.
  apply (window_overflow_raises iso Instances.utc_isoformat Instances.str
           Instances.stdout_utf8 Instances.csv_quotes_cr
           (Some "token") "t"%char "oken" 1000000000 ex_now [page_reply page_BC]).
  - reflexivity.
  - left. vm_compute. reflexivity.
Defined.

Lemma unusable_data_raises_witness :
  fst (run_main (Some "token") ex_days ex_now (start [null_data_reply]))
    = Uncaught TypeError /\
  exit_status (fst (run_main (Some "token") ex_days ex_now (start [null_data_reply])))
    = Some 1 /\
  out (snd (run_main (Some "token") ex_days ex_now (start [null_data_reply])))
    = EmptyString /\
  err (snd (run_main (Some "token") ex_days ex_now (start [null_data_reply])))
    = EmptyString.
Proof.
  apply (unusable_data_raises iso Instances.utc_isoformat Instances.str
           Instances.stdout_utf8 Instances.csv_quotes_cr
           (Some "token") ex_days ex_now [null_data_reply] _ _ null_data_reply).
  - vm_compute; reflexivity.
  - vm_compute. left; reflexivity.
  - reflexivity.
Defined.

Lemma cursor_chain_witness :
  exists more,
    sent (snd (run_fetch_prs "token" (utc ex_cutoff)
                 (start (map page_reply [page_DA] ++ [page_reply page_BC])))) =
    (map (request_of Instances.utc_isoformat "token" (utc ex_cutoff))
         (JNull :: map (fun q => opt_str (endCursor q)) [page_DA]) ++ more)%list.
Proof.
  apply (cursor_chain iso Instances.utc_isoformat Instances.str
           "token" ex_cutoff [page_DA] [page_reply page_BC]).
  repeat (apply Forall_cons || apply Forall_nil). split; [reflexivity|].
  repeat (apply Forall_cons || apply Forall_nil); vm_compute; reflexivity.
Defined.

Lemma stops_at_last_page_witness :
  exists w1,
    run_fetch_prs "token" (utc ex_cutoff)
      (start (map page_reply [page_DA] ++ page_reply page_AEC :: [errors_reply])) =
    (Done (map row_of (filter merged_or_open
                         (flat_map nodes [page_DA] ++
                          fresh iso ex_cutoff (nodes page_AEC)))), w1) /\
    replies w1 = [errors_reply] /\
    length (sent w1) = S (length [page_DA]).
Proof.
  apply (stops_at_last_page iso Instances.utc_isoformat Instances.str
           "token" ex_cutoff [page_DA] page_AEC [errors_reply]).
  - repeat (apply Forall_cons || apply Forall_nil). split; [reflexivity|].
    repeat (apply Forall_cons || apply Forall_nil); vm_compute; reflexivity.
  - reflexivity.
  - repeat (apply Forall_cons || apply Forall_nil); is_timed.
Defined.

Lemma unreadable_timestamp_raises_witness :
  fst (run_fetch_prs "token" (utc ex_cutoff)
         (start (map page_reply [page_DA] ++ page_reply page_AF :: []))) =
  Uncaught (match iso (replace_Z (updatedAt pr_F)) with
            | None => ValueError
            | Some _ => TypeError
            end).
Proof.
  apply (unreadable_timestamp_raises iso Instances.utc_isoformat Instances.str
           "token" ex_cutoff [page_DA] page_AF [pr_A] pr_F [] []).
  - repeat (apply Forall_cons || apply Forall_nil). split; [reflexivity|].
    repeat (apply Forall_cons || apply Forall_nil); vm_compute; reflexivity.
  - reflexivity.
  - repeat (apply Forall_cons || apply Forall_nil); vm_compute; reflexivity.
  - vm_compute; reflexivity.
Defined.

Lemma fetch_prs_walk_witness :
  exists w1,
    run_fetch_prs "token" (utc ex_cutoff) (start (map page_reply [page_DA; page_BC])) =
    (Done (map row_of (filter merged_or_open
             (flat_map (fun p => fresh iso ex_cutoff (nodes p))
                       (firstn (pages_read iso ex_cutoff [page_DA; page_BC])
                               [page_DA; page_BC])))), w1) /\
    length (sent w1) = pages_read iso ex_cutoff [page_DA; page_BC] /\
    (1 <= pages_read iso ex_cutoff [page_DA; page_BC] <= length [page_DA; page_BC])%nat /\
    replies w1 = map page_reply
                   (skipn (pages_read iso ex_cutoff [page_DA; page_BC])
                          [page_DA; page_BC]).
Proof.
  apply (fetch_prs_walk iso Instances.utc_isoformat Instances.str
           "token" ex_cutoff [page_DA; page_BC]).
  - repeat (apply Forall_cons || apply Forall_nil); is_timed.
  - exists [page_DA], page_BC. split; reflexivity.
Defined.

Lemma cutoff_is_inside_witness :
  exists rows w1,
    run_fetch_prs "token" (utc ex_cutoff) (start (map page_reply [page_DA; page_AEC]))
      = (Done rows, w1) /\
    In (row_of pr_E) rows.
Proof.
  apply (cutoff_is_inside iso Instances.utc_isoformat Instances.str
           "token" ex_cutoff [page_DA; page_AEC] pr_E).
  - repeat (apply Forall_cons || apply Forall_nil); split;
      first [ repeat (apply Forall_cons || apply Forall_nil); is_timed
            | is_descending ].
  - exists [page_DA], page_AEC. split; reflexivity.
  - vm_compute. right; right; right; left; reflexivity.
  - vm_compute; reflexivity.
  - reflexivity.
Defined.

Lemma main_report_witness :
  exists w1,
    run_main (Some "token") ex_days ex_now (start (map page_reply [page_DA; page_AEC]))
      = (Done tt, w1) /\
    out w1 = ("title,link,merged,updated" ++ nl) ++
             csv_rows Instances.str Instances.csv_quotes_cr
               (map row_of
                  (filter (retained iso (ex_now - ex_days * us_per_day))
                     (fetched_nodes
                        (pages_read iso (ex_now - ex_days * us_per_day)
                           [page_DA; page_AEC])
                        [page_DA; page_AEC]))) /\
    err w1 = EmptyString /\
    length (sent w1) = pages_read iso (ex_now - ex_days * us_per_day) [page_DA; page_AEC].
Proof.
  apply (main_report iso Instances.utc_isoformat Instances.str
           Instances.stdout_utf8 Instances.csv_quotes_cr
           "t"%char "oken" ex_days ex_now [page_DA; page_AEC]).
  - reflexivity.
  - vm_compute. discriminate.
  - split; vm_compute; discriminate.
  - repeat (apply Forall_cons || apply Forall_nil); split;
      first [ repeat (apply Forall_cons || apply Forall_nil); is_timed
            | is_descending ].
  - exists [page_DA], page_AEC. split; reflexivity.
  - vm_compute; reflexivity.
  - repeat (apply Forall_cons || apply Forall_nil); vm_compute; reflexivity.
Defined.

Lemma replace_Z_suffix_witness :
  replace_Z "2024-01-15T00:00:00" = "2024-01-15T00:00:00" /\
  replace_Z ("2024-01-15T00:00:00" ++ "Z") = "2024-01-15T00:00:00" ++ "+00:00".
Proof.
  apply (replace_Z_suffix "2024-01-15T00:00:00"). reflexivity.
Defined.

Lemma row_cells_witness :
  exists rows w1,
    run_fetch_prs "token" (utc ex_cutoff) (start (map page_reply [page_DA; page_BC]))
      = (Done rows, w1) /\
    Forall2 (fun n r =>
               r_title r = JStr (title n) /\
               r_link r = JStr (url n) /\
               r_updated r = JStr (updatedAt n) /\
               row_values Instances.str r
                 = [title n; url n;
                    if merged n then "true" else "false";
                    updatedAt n])
            (filter merged_or_open
               (flat_map (fun p => fresh iso ex_cutoff (nodes p))
                         (firstn (pages_read iso ex_cutoff [page_DA; page_BC])
                                 [page_DA; page_BC])))
            rows.
Proof.
  apply (row_cells iso Instances.utc_isoformat Instances.str
           "token" ex_cutoff [page_DA; page_BC]).
  - repeat (apply Forall_cons || apply Forall_nil); is_timed.
  - exists [page_DA], page_BC. split; reflexivity.
Defined.
